(** * basic-bimodal: the plotting script of the flip experiments

    A shallow embedding of [flip-docs/resources/experiments/basic-bimodal.py].

    The script is straight-line Python: it defines two helpers ([data_loc]
    and [expected]), a handful of module-level constants, and then drives
    the plotting helpers of the sibling modules [pdfplot] and [kldplot].
    The embedding keeps that shape:

    - Python [int]s are [Z], Python [str]s are [string]s, numeric literals
      that are handed around unevaluated keep the form they are written in
      ([pynum]);
    - [scipy.stats.norm.pdf] is the density of the standard normal law over
      the reals; the values the interpreter computes from it in binary64
      are modelled next to it, in [binary64];
    - the script body is a computation in a small monad that threads the
      drawing surface and the files written so far, and that may raise. *)

From Stdlib Require Import ZArith QArith List String Ascii Bool Lia.
From Stdlib Require Import Numbers.DecimalString Numbers.DecimalZ.
From Stdlib Require Import Reals Lra Qreals Machin.
Import ListNotations.

Open Scope string_scope.
Open Scope Z_scope.
Open Scope list_scope.

(* ================================================================= *)
(** ** Python builtins used by the script *)

Module Py.

(** [a + b] on [str] objects; Python's [+] associates to the left. *)
Definition add_str (a b : string) : string := String.append a b.

(** [str(i)] for an [int]: the shortest decimal rendering, with a
    leading minus sign for negative numbers. *)
Definition str (i : Z) : string := NilEmpty.string_of_int (Z.to_int i).

(** [ord(c)] and [chr(n)], on the code points below 256. *)
Definition ord (c : ascii) : nat := nat_of_ascii c.
Definition chr (n : nat) : string := String (ascii_of_nat n) EmptyString.

(** [len(l)]. *)
Definition len {A : Type} (l : list A) : nat := List.length l.

(** Whether [c] has not run past [stop]; [incl] says whether [stop]
    itself still counts. *)
Definition within (incl : bool) (c stop : Z) : bool :=
  if incl then c <=? stop else c <? stop.

(** The arithmetic progression [c, c + step, c + 2 step, ...] cut at
    [stop].  [fuel] bounds the number of elements. *)
Fixpoint progression (incl : bool) (fuel : nat) (c stop step : Z) : list Z :=
  match fuel with
  | O => []
  | S fuel' =>
      if within incl c stop
      then c :: progression incl fuel' (c + step) stop step
      else []
  end.

(** The builtin [range(start, stop, step)] for a positive [step]: [stop]
    itself is never produced. *)
Definition range (start stop step : Z) : list Z :=
  progression false (Z.to_nat (stop - start)) start stop step.

End Py.

Infix "+++" := Py.add_str (at level 50, left associativity).

(** A numeric literal as the script writes it: an [int] literal, or a
    [float] literal kept as the decimal fraction it denotes. *)
Inductive pynum : Type :=
| PyInt (n : Z)
| PyFloat (d : Q).

Definition num_val (v : pynum) : R :=
  match v with
  | PyInt n => IZR n
  | PyFloat d => Q2R d
  end.

(* ================================================================= *)
(** ** scipy.stats.norm *)

Module norm.

(** [norm.pdf(z)]: [exp(-z**2/2) / sqrt(2*pi)], as the exact real. *)
Definition pdf (z : R) : R := (exp (- (z ^ 2) / 2) / sqrt (2 * PI))%R.

End norm.

(* ================================================================= *)
(** ** The script: helpers and constants *)

Definition name : string := "basic-bimodal".
Definition dir : string := "../../../flip-bench/experiments/basic-bimodal/".

Definition data_loc (i : Z) : string :=
  dir +++ "basic-bimodal-pdf-" +++ Py.str i +++ ".out".

(** [expected(x, i = -1)]. *)
Definition expected (x : R) (i : Z) : R :=
  (0.5 * norm.pdf (x - 2) + 0.5 * norm.pdf (x + 2))%R.

Definition expected_default (x : R) : R := expected x (-1).

Definition xmin : pynum := PyInt (-5).
Definition xmax : pynum := PyInt 5.
Definition ymin : pynum := PyInt 0.
Definition ymax : pynum := PyFloat 0.3.

Definition data_counts : list Z := [40; 60; 340].

Definition countmin : Z := 40.
Definition countmax : Z := 500.
Definition rearr_start : Z := 50.
Definition rearr_period : Z := 100.
Definition kld_max : pynum := PyFloat 0.13.

Definition kld_data_loc : string := dir +++ "basic-bimodal-kld.out".

Definition start : Z := 10.
Definition end_ : Z := 500.
Definition step : Z := 10.
Definition fps : pynum := PyInt 4.

(* ================================================================= *)
(** ** The reference density as the interpreter computes it

    Python's [float] is IEEE binary64 and every arithmetic operation
    rounds its exact result to the nearest binary64 value.  The values are
    kept as the reals they denote; overflow to infinity and NaN are not
    modelled (no value of the script comes near [2^1024]). *)

Module binary64.









End binary64.

(* ================================================================= *)
(** ** The world the script runs in *)

(** What is found at a path when a loader opens it. *)
Definition samples : Type := list (Q * Q).

Inductive file : Type :=
| Absent
| Garbled
| Readable (rows : samples).

Definition filesystem : Type := string -> file.

Inductive load_failure : Type := NotFound | BadContent.

Inductive exn : Type :=
| LoadError (path : string) (why : load_failure).

Record axis_bounds : Type := {
  b_xmin : pynum;
  b_xmax : pynum;
  b_ymin : pynum;
  b_ymax : pynum
}.

Inductive style : Type := Bar | Errorbar.

(** One empirical-versus-reference density picture: a panel of the
    static figure or a frame of an animation. *)
Record density_plot : Type := {
  dp_style : style;
  dp_reference : R -> Z -> R;
  dp_path : string;
  dp_rows : samples;
  dp_bounds : axis_bounds
}.

Record divergence_plot : Type := {
  kp_path : string;
  kp_rows : samples;
  kp_cap : pynum;
  kp_countmin : Z;
  kp_countmax : Z;
  kp_markers : list Z
}.

Inductive drawing : Type :=
| Blank
| Density (d : density_plot)
| Divergence (k : divergence_plot).

(** An Axes object: the grid cell it was created for by
    [plt.subplot(nrows, ncols, index)], its title and what was drawn. *)
Record panel : Type := {
  p_nrows : nat;
  p_ncols : nat;
  p_index : nat;
  p_title : string;
  p_legend : bool;
  p_drawing : drawing
}.

Record frame : Type := {
  f_checkpoint : Z;
  f_plot : density_plot
}.

Inductive artifact : Type :=
| Figure (panels : list panel)
| Movie (frames : list frame) (rate : pynum).

(** The state a run threads: the size and the panels of the current
    figure (panels in creation order), the current Axes, the files written
    so far (oldest first) and whether the figure window was shown. *)
Record world : Type := {
  w_figsize : option (pynum * pynum);
  w_panels : list panel;
  w_current : option nat;
  w_written : list (string * artifact);
  w_shown : bool
}.

Definition initial_world : world :=
  {| w_figsize := None; w_panels := []; w_current := None;
     w_written := []; w_shown := false |}.

(* ================================================================= *)
(** ** A monad for scripts: reader of the file system, state, exceptions *)

Inductive outcome (A : Type) : Type :=
| Done (a : A)
| Raised (e : exn).
Arguments Done {A} a.
Arguments Raised {A} e.

Definition script (A : Type) : Type := filesystem -> world -> world * outcome A.

Definition ret {A : Type} (a : A) : script A := fun _ w => (w, Done a).

Definition raise {A : Type} (e : exn) : script A := fun _ w => (w, Raised e).

Definition bind {A B : Type} (m : script A) (k : A -> script B) : script B :=
  fun fs w =>
    match m fs w with
    | (w', Done a) => k a fs w'
    | (w', Raised e) => (w', Raised e)
    end.

Notation "x <- m ;; k" := (bind m (fun x => k))
  (at level 61, m at next level, right associativity).
Notation "m ;;; k" := (bind m (fun _ => k))
  (at level 61, right associativity).

Definition get : script world := fun _ w => (w, Done w).
Definition modify (f : world -> world) : script unit := fun _ w => (f w, Done tt).

(* ================================================================= *)
(** ** matplotlib.pyplot, as far as the script uses it *)

Module plt.

(** [plt.figure(figsize=(width, height))]: a new, empty figure becomes the
    current one. *)
Definition figure (width height : pynum) : script unit :=
  modify (fun w =>
    {| w_figsize := Some (width, height); w_panels := []; w_current := None;
       w_written := w_written w; w_shown := w_shown w |}).

Definition same_cell (nrows ncols index : nat) (p : panel) : bool :=
  Nat.eqb (p_nrows p) nrows && Nat.eqb (p_ncols p) ncols && Nat.eqb (p_index p) index.

Fixpoint find_cell (nrows ncols index : nat) (ps : list panel) (at_ : nat) : option nat :=
  match ps with
  | [] => None
  | p :: ps' =>
      if same_cell nrows ncols index p then Some at_
      else find_cell nrows ncols index ps' (S at_)
  end.

Definition fresh (nrows ncols index : nat) : panel :=
  {| p_nrows := nrows; p_ncols := ncols; p_index := index;
     p_title := ""; p_legend := false; p_drawing := Blank |}.

Definition set_current (ax : nat) (w : world) : world :=
  {| w_figsize := w_figsize w; w_panels := w_panels w; w_current := Some ax;
     w_written := w_written w; w_shown := w_shown w |}.

Definition add_panel (p : panel) (w : world) : world :=
  {| w_figsize := w_figsize w; w_panels := w_panels w ++ [p];
     w_current := Some (List.length (w_panels w));
     w_written := w_written w; w_shown := w_shown w |}.

(** [plt.subplot(nrows, ncols, index)]: the Axes of that grid cell, made
    on first use; it becomes the current Axes.  The result is the
    position of the Axes in the figure. *)
Definition subplot (nrows ncols index : nat) : script nat :=
  w <- get ;;
  match find_cell nrows ncols index (w_panels w) 0 with
  | Some ax => modify (set_current ax) ;;; ret ax
  | None => modify (add_panel (fresh nrows ncols index)) ;;; ret (List.length (w_panels w))
  end.

Fixpoint update_nth (ax : nat) (f : panel -> panel) (ps : list panel) : list panel :=
  match ps, ax with
  | [], _ => []
  | p :: ps', O => f p :: ps'
  | p :: ps', S ax' => p :: update_nth ax' f ps'
  end.

Definition on_axes (ax : nat) (f : panel -> panel) : script unit :=
  modify (fun w =>
    {| w_figsize := w_figsize w; w_panels := update_nth ax f (w_panels w);
       w_current := w_current w; w_written := w_written w; w_shown := w_shown w |}).

Definition with_title (t : string) (p : panel) : panel :=
  {| p_nrows := p_nrows p; p_ncols := p_ncols p; p_index := p_index p;
     p_title := t; p_legend := p_legend p; p_drawing := p_drawing p |}.

Definition with_legend (p : panel) : panel :=
  {| p_nrows := p_nrows p; p_ncols := p_ncols p; p_index := p_index p;
     p_title := p_title p; p_legend := true; p_drawing := p_drawing p |}.

Definition with_drawing (d : drawing) (p : panel) : panel :=
  {| p_nrows := p_nrows p; p_ncols := p_ncols p; p_index := p_index p;
     p_title := p_title p; p_legend := p_legend p; p_drawing := d |}.

(** [ax.set_title(t)]. *)
Definition set_title (ax : nat) (t : string) : script unit :=
  on_axes ax (with_title t).

(** [plt.legend()]: a legend on the current Axes. *)
Definition legend : script unit :=
  w <- get ;;
  match w_current w with
  | Some ax => on_axes ax with_legend
  | None => ret tt
  end.

Definition write (filename : string) (a : artifact) : script unit :=
  modify (fun w =>
    {| w_figsize := w_figsize w; w_panels := w_panels w; w_current := w_current w;
       w_written := w_written w ++ [(filename, a)]; w_shown := w_shown w |}).

(** [plt.savefig(filename)]: the current figure goes to [filename]. *)
Definition savefig (filename : string) : script unit :=
  w <- get ;; write filename (Figure (w_panels w)).

(** [plt.show()]. *)
Definition show : script unit :=
  modify (fun w =>
    {| w_figsize := w_figsize w; w_panels := w_panels w; w_current := w_current w;
       w_written := w_written w; w_shown := true |}).

End plt.

(* ================================================================= *)
(** ** The plotting helpers of the sibling modules

    [pdfplot.py], [kldplot.py] and [preprocessing.py] are imported by the
    script but are not part of the source at hand; what they do is taken
    from the specification. *)

(** Modelled from the spec: the loader behind every render call
    ([preprocessing], missing).  "Failure: must signal clearly if the file is
    missing or malformed -- propagate as a load error to the caller". *)
Definition load (path : string) : script samples :=
  fun fs w =>
    match fs path with
    | Absent => (w, Raised (LoadError path NotFound))
    | Garbled => (w, Raised (LoadError path BadContent))
    | Readable rows => (w, Done rows)
    end.

Module pdfplt.

(** Modelled from the spec: [pdfplot.pdfplot_bar] (missing).  "Load the
    checkpoint file's samples, render them as a bar-style empirical
    density estimate, overlay the reference function evaluated across
    [xmin, xmax], clip the vertical axis to [ymin, ymax].  Side effect:
    mutates the given drawing surface in place." *)
Definition pdfplot_bar (ax : nat) (reference : R -> Z -> R) (path : string)
    (xmin xmax ymin ymax : pynum) : script unit :=
  rows <- load path ;;
  plt.on_axes ax (plt.with_drawing (Density
    {| dp_style := Bar; dp_reference := reference; dp_path := path; dp_rows := rows;
       dp_bounds := {| b_xmin := xmin; b_xmax := xmax; b_ymin := ymin; b_ymax := ymax |} |})).

(** Modelled from the spec: the checkpoints of an animation sweep
    ([pdfplot], missing).  "For each checkpoint c in range(start, end,
    step) inclusive of end as configured": [start], [start + step], ... up
    to and including [end_], for a positive step. *)
Definition sweep (start end_ step : Z) : list Z :=
  Py.progression true (Z.to_nat (end_ - start + 1)) start end_ step.

(** Modelled from the spec: the animation object returned by
    [pdfplot.animated_pdfplot_errorbar] and [pdfplot.animated_pdfplot_bar]
    (missing).  "Produces a frame sequence (lazy, finite, single-pass)
    handed to an encoder": building the animation reads nothing yet. *)
Record animation : Type := {
  a_style : style;
  a_data_loc : Z -> string;
  a_checkpoints : list Z;
  a_reference : R -> Z -> R;
  a_bounds : axis_bounds
}.

(** Modelled from the spec: [pdfplot.animated_pdfplot_errorbar] (variant A,
    "markers with vertical uncertainty whiskers") and
    [pdfplot.animated_pdfplot_bar] (variant B, "histogram bars"), both
    missing.  "Inputs: a checkpoint-to-path mapping function, a
    start/end/step defining the checkpoint sweep, the reference function,
    and the four axis bounds." *)
Definition animated (s : style) (data_loc : Z -> string) (start end_ step : Z)
    (reference : R -> Z -> R) (xmin xmax ymin ymax : pynum) : script animation :=
  ret {| a_style := s; a_data_loc := data_loc;
         a_checkpoints := sweep start end_ step; a_reference := reference;
         a_bounds := {| b_xmin := xmin; b_xmax := xmax; b_ymin := ymin; b_ymax := ymax |} |}.

Definition animated_pdfplot_errorbar := animated Errorbar.
Definition animated_pdfplot_bar := animated Bar.

(** Modelled from the spec: one frame of an animation (missing).  "Resolve
    the file path, load that checkpoint's samples, render one frame,
    holding axis bounds fixed across all frames". *)
Definition render_frame (a : animation) (c : Z) : script frame :=
  rows <- load (a_data_loc a c) ;;
  ret {| f_checkpoint := c;
         f_plot := {| dp_style := a_style a; dp_reference := a_reference a;
                      dp_path := a_data_loc a c; dp_rows := rows;
                      dp_bounds := a_bounds a |} |}.

(** The frames the encoder has grabbed when it stops: those of [cs], in
    order, up to the first one that fails to render, and the exception that
    stopped it, if any. *)
Fixpoint grab_frames (a : animation) (cs : list Z) (fs : filesystem) (w : world)
    : world * (list frame * option exn) :=
  match cs with
  | [] => (w, ([], None))
  | c :: cs' =>
      match render_frame a c fs w with
      | (w', Raised e) => (w', ([], Some e))
      | (w', Done f) =>
          match grab_frames a cs' fs w' with
          | (w'', (frames, stop)) => (w'', (f :: frames, stop))
          end
      end
  end.

(** [animation.save(filename, writer='imagemagick', fps=fps)], the call of
    lines 69 and 72 into matplotlib: while the writer is open the frames
    are rendered and grabbed one after the other, and the writer is
    finished on the way out, also when rendering a frame raises.  The file
    then holds the frames grabbed before the failure, and the exception
    goes on to the caller. *)
Definition save (a : animation) (filename : string) (fps : pynum) : script unit :=
  fun fs w =>
    match grab_frames a (a_checkpoints a) fs w with
    | (w', (frames, stop)) =>
        (fst (plt.write filename (Movie frames fps) fs w'),
         match stop with
         | None => Done tt
         | Some e => Raised e
         end)
    end.

End pdfplt.

Module kldplt.

(** Modelled from the spec: the rearrangement markers of
    [kldplot.kldplot] (missing).  "Every checkpoint at rearr_start + k *
    rearr_period (k = 0,1,2,...) that falls within [countmin, countmax]",
    for a positive period. *)
Definition rearr_markers (countmin countmax rearr_start rearr_period : Z) : list Z :=
  filter (fun c => countmin <=? c)
    (Py.progression true (Z.to_nat (countmax - rearr_start + 1))
       rearr_start countmax rearr_period).

(** Modelled from the spec: [kldplot.kldplot] (missing).  "Load the trace,
    plot divergence value vs. update count, clip the y-axis to [0,
    kld_max], and visually mark every [rearrangement] checkpoint.  Same
    load-failure policy". *)
Definition kldplot (ax : nat) (path : string) (kld_max : pynum)
    (countmin countmax rearr_start rearr_period : Z) : script unit :=
  rows <- load path ;;
  plt.on_axes ax (plt.with_drawing (Divergence
    {| kp_path := path; kp_rows := rows; kp_cap := kld_max;
       kp_countmin := countmin; kp_countmax := countmax;
       kp_markers := rearr_markers countmin countmax rearr_start rearr_period |})).

End kldplt.

(* ================================================================= *)
(** ** The script body *)

(** [# PDF: Represented].  The [for] loop over [data_counts], with its
    counter [i]; [all] is the list the loop header names, [rest] what is
    left to visit. *)
Fixpoint pdf_loop (all rest : list Z) (i : nat) : script nat :=
  match rest with
  | [] => ret i
  | data_count :: rest' =>
      ax <- plt.subplot 1 (Py.len all + 1) (i + 1) ;;
      let annotation :=
        "(" +++ Py.chr (Py.ord "a" + i) +++ ")" +++ " pdf at update count: "
            +++ Py.str data_count in
      plt.set_title ax annotation ;;;
      pdfplt.pdfplot_bar ax expected (data_loc data_count) xmin xmax ymin ymax ;;;
      pdf_loop all rest' (i + 1)
  end.

Definition pdf_represented : script nat := pdf_loop data_counts data_counts 0.

(** [# KLD]. *)
Definition kld : script unit :=
  ax <- plt.subplot 1 (Py.len data_counts + 1) (Py.len data_counts + 1) ;;
  plt.set_title ax "(d) KL-divergence" ;;;
  kldplt.kldplot ax kld_data_loc kld_max countmin countmax rearr_start rearr_period.

(** [# Save Plot]. *)
Definition save_plot : script unit :=
  plt.legend ;;;
  plt.savefig (name +++ ".pdf") ;;;
  plt.savefig (name +++ ".png") ;;;
  plt.show.

(** [# PDF: Animated]. *)
Definition pdf_animated : script unit :=
  utd_animation1 <-
    pdfplt.animated_pdfplot_errorbar data_loc start end_ step expected xmin xmax ymin ymax ;;
  pdfplt.save utd_animation1 (name +++ "-errorbar.gif") fps ;;;
  utd_animation2 <-
    pdfplt.animated_pdfplot_bar data_loc start end_ step expected xmin xmax ymin ymax ;;
  pdfplt.save utd_animation2 (name +++ "-histo.gif") fps.

(** The static figure: [fig = plt.figure(figsize=(20, 5))], the density
    panels, then the divergence panel. *)
Definition static_figure : script unit :=
  plt.figure (PyInt 20) (PyInt 5) ;;; pdf_represented ;;; kld.

(** The whole script, top to bottom. *)
Definition main : script unit :=
  static_figure ;;; save_plot ;;; pdf_animated.

(** A run on a given file system, from an empty drawing surface. *)
Definition run (fs : filesystem) : world * outcome unit := main fs initial_world.

Definition written_names (w : world) : list string := map fst (w_written w).

(** The render calls of a run that take axis bounds: the bounds drawn on
    each density panel of the figure, and on each frame of each movie
    written. *)
Definition panel_bounds (p : panel) : list axis_bounds :=
  match p_drawing p with
  | Density d => [dp_bounds d]
  | _ => []
  end.

Definition artifact_bounds (a : artifact) : list axis_bounds :=
  match a with
  | Figure ps => flat_map panel_bounds ps
  | Movie fs _ => map (fun f => dp_bounds (f_plot f)) fs
  end.

Definition bounds_used (w : world) : list axis_bounds :=
  flat_map panel_bounds (w_panels w)
    ++ flat_map (fun fa => artifact_bounds (snd fa)) (w_written w).

(** A file system in which every path holds the same readable rows. *)
Definition all_readable : filesystem := fun _ => Readable [(0, 1)%Q].

(* ================================================================= *)
(** ** The reference model as the specification writes it *)

(** [N(x; mean, std)]: the density at [x] of the normal law with the given
    mean and standard deviation. *)
Definition Normal (x mean std : R) : R :=
  (/ (std * sqrt (2 * PI)) * exp (- (((x - mean) / std) ^ 2) / 2))%R.

(** The two-component mixture of the specification. *)
Definition mixture (x : R) : R := (0.5 * Normal x 2 1 + 0.5 * Normal x (-2) 1)%R.

(* ================================================================= *)
(** ** Predicates on runs *)

Definition configured_bounds : axis_bounds :=
  {| b_xmin := xmin; b_xmax := xmax; b_ymin := ymin; b_ymax := ymax |}.

Definition readable (fs : filesystem) (path : string) : Prop :=
  exists rows, fs path = Readable rows.

(** The exception names a file that could indeed not be loaded, with the
    reason that applies. *)
Definition load_failed (fs : filesystem) (e : exn) : Prop :=
  match e with
  | LoadError path why =>
      match fs path, why with
      | Absent, NotFound => True
      | Garbled, BadContent => True
      | _, _ => False
      end
  end.

Definition panel_ok (p : panel) : Prop :=
  Forall (eq configured_bounds) (panel_bounds p).

Definition artifact_ok (a : artifact) : Prop :=
  Forall (eq configured_bounds) (artifact_bounds a).

(** Every density picture drawn or written so far uses the configured
    axis bounds. *)
Definition bounds_ok (w : world) : Prop :=
  Forall panel_ok (w_panels w) /\ Forall (fun fa => artifact_ok (snd fa)) (w_written w).

(** [m] keeps the invariant [P] whatever its outcome, and raises only
    load errors that the file system justifies. *)
Definition sound (fs : filesystem) (P : world -> Prop) {A : Type} (m : script A) : Prop :=
  forall w, P w ->
    P (fst (m fs w)) /\ forall e, snd (m fs w) = Raised e -> load_failed fs e.

(** [f] is a frame of the animation [a], drawn from a file that loads. *)
Definition frame_of (fs : filesystem) (a : pdfplt.animation) (f : frame) : Prop :=
  dp_bounds (f_plot f) = pdfplt.a_bounds a
  /\ dp_style (f_plot f) = pdfplt.a_style a
  /\ dp_path (f_plot f) = pdfplt.a_data_loc a (f_checkpoint f)
  /\ fs (dp_path (f_plot f)) = Readable (dp_rows (f_plot f)).

(** The two animations the script builds. *)
Definition utd_animation (s : style) : pdfplt.animation :=
  {| pdfplt.a_style := s; pdfplt.a_data_loc := data_loc;
     pdfplt.a_checkpoints := pdfplt.sweep start end_ step;
     pdfplt.a_reference := expected; pdfplt.a_bounds := configured_bounds |}.

(** A file system in which the checkpoint file of update count [c] is
    missing and every other path is readable. *)
Definition missing_checkpoint (c : Z) : filesystem :=
  fun path => if String.eqb path (data_loc c) then Absent else Readable [(0, 1)%Q].


Definition is_movie (a : artifact) : bool :=
  match a with
  | Movie _ _ => true
  | Figure _ => false
  end.

(* ================================================================= *)
(** ** Names the script builds inline *)

(** The title of the [i]-th density panel (line 33), for update count
    [data_count]. *)
Definition annotation (i : nat) (data_count : Z) : string :=
  "(" +++ Py.chr (Py.ord "a" + i) +++ ")" +++ " pdf at update count: "
      +++ Py.str data_count.

(** The titles the loop of lines 30-36 gives when it starts counting at
    [i]. *)
Fixpoint annotations (i : nat) (counts : list Z) : list string :=
  match counts with
  | [] => []
  | data_count :: counts' => annotation i data_count :: annotations (i + 1) counts'
  end.

(** The file names the script writes to, in order (lines 56, 57, 69 and
    72), for an experiment called [n]. *)
Definition output_names (n : string) : list string :=
  [n +++ ".pdf"; n +++ ".png"; n +++ "-errorbar.gif"; n +++ "-histo.gif"].

(** The file a panel was drawn from, if any. *)
Definition drawn_path (p : panel) : option string :=
  match p_drawing p with
  | Blank => None
  | Density d => Some (dp_path d)
  | Divergence k => Some (kp_path k)
  end.

(** The paths the script hands to a loader: the checkpoint files of the
    static panels (line 35), the trace file (line 51) and the checkpoint
    files of the sweep (lines 68 and 71). *)
Definition input_path (path : string) : Prop :=
  (exists c, In c data_counts /\ path = data_loc c)
  \/ path = kld_data_loc
  \/ (exists c, In c (pdfplt.sweep start end_ step) /\ path = data_loc c).

(** [m] consults the file system at the paths in [paths] only. *)
Definition reads_only (paths : string -> Prop) {A : Type} (m : script A) : Prop :=
  forall fs fs' : filesystem,
    (forall path, paths path -> fs path = fs' path) ->
    forall w, m fs w = m fs' w.

(** The panel an iteration of the loop of lines 30-36 leaves behind: made
    for cell [i + 1] of the one-row grid, titled, and holding [d]. *)
Definition titled_panel (all : list Z) (i : nat) (data_count : Z) (d : drawing) : panel :=
  {| p_nrows := 1; p_ncols := Py.len all + 1; p_index := i + 1;
     p_title := annotation i data_count; p_legend := false; p_drawing := d |}.

(** What [pdfplot_bar] draws in an iteration of that loop. *)
Definition bar_drawing (data_count : Z) (rows : samples) : drawing :=
  Density {| dp_style := Bar; dp_reference := expected; dp_path := data_loc data_count;
             dp_rows := rows; dp_bounds := configured_bounds |}.

(** A file system that differs from [all_readable] at one path the script
    never names. *)
Definition all_but_notes : filesystem :=
  fun path => if String.eqb path "notes.txt" then Absent else Readable [(0, 1)%Q].

(* ================================================================= *)
(** * Properties *)

(* ================================================================= *)
(** ** The reference density *)

Section Density.
Local Open Scope R_scope.

(** *** Numeric bounds on the constants involved *)

Lemma PI_bounds : 3.1415 < PI < 3.1421.
Proof.
  pose proof (PI_2_3_7_ineq 1) as [Hlo Hhi].
  unfold sum_f_R0, tg_alt, PI_2_3_7_tg, Ratan_seq in Hlo, Hhi; simpl in Hlo, Hhi.
  lra.
Qed.

Lemma sqrt_2PI_bounds : 2.5065 < sqrt (2 * PI) < 2.507.
Proof.
  pose proof PI_bounds as [Hlo Hhi]. split.
  - replace 2.5065 with (sqrt (2.5065 * 2.5065)) by (apply sqrt_square; lra).
    apply sqrt_lt_1_alt; lra.
  - replace 2.507 with (sqrt (2.507 * 2.507)) by (apply sqrt_square; lra).
    apply sqrt_lt_1_alt; lra.
Qed.

Lemma exp_double (a b : R) : 0 <= b -> b <= exp a -> b * b <= exp (a + a).
Proof. intros Hb H. rewrite exp_plus. nra. Qed.

Lemma exp_1_lower : 2.673 <= exp 1.
Proof.
  assert (H32 : 1.03125 <= exp (1 / 32)) by (pose proof (exp_ineq1_le (1 / 32)); lra).
  assert (H16 : 1.0634 <= exp (1 / 16)).
  { replace (1 / 16) with (1 / 32 + 1 / 32) by lra.
    pose proof (exp_double (1 / 32) 1.03125); lra. }
  assert (H8 : 1.1308 <= exp (1 / 8)).
  { replace (1 / 8) with (1 / 16 + 1 / 16) by lra.
    pose proof (exp_double (1 / 16) 1.0634); lra. }
  assert (H4 : 1.2787 <= exp (1 / 4)).
  { replace (1 / 4) with (1 / 8 + 1 / 8) by lra.
    pose proof (exp_double (1 / 8) 1.1308); lra. }
  assert (H2 : 1.635 <= exp (1 / 2)).
  { replace (1 / 2) with (1 / 4 + 1 / 4) by lra.
    pose proof (exp_double (1 / 4) 1.2787); lra. }
  replace 1 with (1 / 2 + 1 / 2) by lra.
  pose proof (exp_double (1 / 2) 1.635); lra.
Qed.

Lemma exp_2_lower : 7.14 <= exp 2.
Proof.
  replace 2 with (1 + 1) by lra.
  pose proof exp_1_lower. pose proof (exp_double 1 2.673); lra.
Qed.

Lemma exp_4_lower : 50.9 <= exp 4.
Proof.
  replace 4 with (2 + 2) by lra.
  pose proof exp_2_lower. pose proof (exp_double 2 7.14); lra.
Qed.

Lemma exp_6_lower : 385 <= exp (49 / 8).
Proof.
  replace (49 / 8) with (4 + 2 + 1 / 8) by lra. rewrite !exp_plus.
  pose proof exp_4_lower. pose proof exp_2_lower.
  pose proof (exp_ineq1_le (1 / 8)).
  assert (363 <= exp 4 * exp 2) by nra. nra.
Qed.

Lemma exp_mono (a b : R) : a <= b -> exp a <= exp b.
Proof.
  intros [Hlt | ->]; [left; now apply exp_increasing | right; reflexivity].
Qed.

(** *** The standard normal density *)

Lemma pdf_pos (z : R) : 0 < norm.pdf z.
Proof.
  unfold norm.pdf. apply Rdiv_lt_0_compat; [apply exp_pos |].
  pose proof sqrt_2PI_bounds; lra.
Qed.

Lemma pdf_even (z : R) : norm.pdf (- z) = norm.pdf z.
Proof.
  unfold norm.pdf. replace ((- z) ^ 2) with (z ^ 2) by ring. reflexivity.
Qed.

(** Where [z^2 / 2 >= c] and [exp c >= b], the bell is below [1 / (2.5065 b)]. *)
Lemma pdf_upper (z c b : R) :
  c <= z ^ 2 / 2 -> 0 < b -> b <= exp c -> norm.pdf z < / (2.5065 * b).
Proof.
  intros Hc Hb He. unfold norm.pdf.
  pose proof sqrt_2PI_bounds as [Hs _].
  assert (Hz : exp (- z ^ 2 / 2) <= / b).
  { replace (- z ^ 2 / 2) with (- (z ^ 2 / 2)) by lra. rewrite exp_Ropp.
    apply Rinv_le_contravar; [exact Hb |].
    apply Rle_trans with (exp c); [exact He | apply exp_mono; exact Hc]. }
  assert (Hib : 0 < / b) by now apply Rinv_0_lt_compat.
  assert (His : / sqrt (2 * PI) < / 2.5065) by (apply Rinv_lt_contravar; nra).
  assert (His0 : 0 < / sqrt (2 * PI)) by (apply Rinv_0_lt_compat; lra).
  pose proof (exp_pos (- z ^ 2 / 2)) as Hp.
  rewrite Rinv_mult. unfold Rdiv. rewrite (Rmult_comm (/ 2.5065)).
  apply Rle_lt_trans with (/ b * / sqrt (2 * PI)).
  - apply Rmult_le_compat_r; lra.
  - apply Rmult_lt_compat_l; lra.
Qed.

(** Where [z^2 / 2 <= c] and [exp c <= b], the bell is above [1 / (2.507 b)]. *)
Lemma pdf_lower (z c b : R) :
  z ^ 2 / 2 <= c -> exp c <= b -> / (2.507 * b) < norm.pdf z.
Proof.
  intros Hc He. unfold norm.pdf.
  pose proof sqrt_2PI_bounds as [Hs0 Hs].
  pose proof (exp_pos c) as Hpc.
  assert (Hz : / b <= exp (- z ^ 2 / 2)).
  { replace (- z ^ 2 / 2) with (- (z ^ 2 / 2)) by lra. rewrite exp_Ropp.
    apply Rinv_le_contravar; [apply exp_pos |].
    apply Rle_trans with (exp c); [apply exp_mono; exact Hc | exact He]. }
  assert (Hib : 0 < / b) by (apply Rinv_0_lt_compat; lra).
  assert (His : / 2.507 < / sqrt (2 * PI)) by (apply Rinv_lt_contravar; nra).
  rewrite Rinv_mult. unfold Rdiv. rewrite (Rmult_comm (/ 2.507)).
  apply Rlt_le_trans with (/ b * / sqrt (2 * PI)).
  - apply Rmult_lt_compat_l; lra.
  - apply Rmult_le_compat_r; [| exact Hz]. left. apply Rinv_0_lt_compat. lra.
Qed.



Lemma expected_even (x : R) (i : Z) : expected (- x) i = expected x i.
Proof.
  unfold expected.
  replace (- x - 2) with (- (x + 2)) by ring.
  replace (- x + 2) with (- (x - 2)) by ring.
  rewrite !pdf_even. ring.
Qed.


(** ... and comes within [0.0006] of that at the two modes. *)
Lemma expected_at_mode (i : Z) : 0.1994 < expected 2 i /\ expected (-2) i = expected 2 i.
Proof.
  split.
  - unfold expected. pose proof (pdf_pos (2 + 2)).
    assert (A : / (2.507 * 1) < norm.pdf (2 - 2)).
    { apply (pdf_lower _ 0); [| rewrite exp_0]; lra. }
    lra.
  - replace (-2) with (- (2)) by lra. apply expected_even.
Qed.

(** X4. Inside the plotted window the reference curve is well away from zero. *)
Lemma expected_window_lower (x : R) (i : Z) :
  num_val xmin <= x <= num_val xmax -> / 1219 < expected x i.
Proof.
  unfold xmin, xmax, num_val. intros [Hlo Hhi].
  assert (H5 : exp (9 / 2) <= 243).
  { apply Rle_trans with (exp 5); [apply exp_mono; lra |].
    pose proof exp_le_3 as H1. pose proof (exp_pos 1) as P1.
    assert (H2 : exp 2 <= 9).
    { replace 2 with (1 + 1) by ring. rewrite exp_plus. nra. }
    pose proof (exp_pos 2) as P2.
    assert (H4 : exp 4 <= 81).
    { replace 4 with (2 + 2) by ring. rewrite exp_plus. nra. }
    pose proof (exp_pos 4) as P4.
    replace 5 with (4 + 1) by ring. rewrite exp_plus. nra. }
  unfold expected.
  pose proof (pdf_pos (x - 2)). pose proof (pdf_pos (x + 2)).
  destruct (Rle_dec 0 x) as [Hx | Hx].
  - assert (/ (2.507 * 243) < norm.pdf (x - 2)) by (apply (pdf_lower _ (9 / 2)); nra). lra.
  - assert (/ (2.507 * 243) < norm.pdf (x + 2)) by (apply (pdf_lower _ (9 / 2)); nra). lra.
Qed.

Lemma Normal_shift (x mean : R) : Normal x mean 1 = norm.pdf (x - mean).
Proof.
  unfold Normal, norm.pdf. rewrite Rmult_1_l.
  replace ((x - mean) / 1) with (x - mean) by field.
  unfold Rdiv. ring.
Qed.

(** C1. For every real [x] and every update count [i], [expected x i] is
    [0.5 * N(x; mean=2, std=1) + 0.5 * N(x; mean=-2, std=1)], each term the
    standard normal density shifted by two; it is a function of [x] alone:
    the result is the same for every [i], the default argument [-1]
    included. *)
Theorem expected_is_mixture (x : R) (i : Z) :
  expected x i = mixture x
  /\ Normal x 2 1 = norm.pdf (x - 2)
  /\ Normal x (-2) 1 = norm.pdf (x + 2)
  /\ (forall j : Z, expected x j = expected x i)
  /\ expected_default x = expected x i.
Proof.
  assert (Hm : Normal x (-2) 1 = norm.pdf (x + 2)).
  { rewrite Normal_shift. f_equal. ring. }
  repeat split.
  - unfold expected, mixture. now rewrite Normal_shift, Hm.
  - apply Normal_shift.
  - exact Hm.
Qed.

(** C5. The reference density is symmetric about zero:
    [expected(x, i) = expected(-x, i)] for every real [x] and every [i]. *)
Theorem expected_symmetric (x : R) (i : Z) : expected x i = expected (- x) i.
Proof. symmetry. apply expected_even. Qed.

End Density.

(* ================================================================= *)
(** ** The reference density in binary64 *)

Section Binary64.
Local Open Scope R_scope.
Import binary64.






























(** *** The computed density *)















End Binary64.

(* ================================================================= *)
(** ** Checkpoint paths *)

Section Paths.

Lemma add_str_assoc (a b c : string) : a +++ b +++ c = a +++ (b +++ c).
Proof.
  unfold Py.add_str. induction a as [| ch a IH]; simpl; [reflexivity | now rewrite IH].
Qed.

Lemma add_str_cancel_l (a b c : string) : a +++ b = a +++ c -> b = c.
Proof.
  unfold Py.add_str. induction a as [| ch a IH]; simpl; intros H.
  - exact H.
  - injection H as H. now apply IH.
Qed.

Lemma chars_add_str (a b : string) :
  list_ascii_of_string (a +++ b) = list_ascii_of_string a ++ list_ascii_of_string b.
Proof.
  unfold Py.add_str. induction a as [| ch a IH]; simpl; [reflexivity | now rewrite IH].
Qed.

Lemma add_str_cancel_r (a b t : string) : a +++ t = b +++ t -> a = b.
Proof.
  intros H. apply (f_equal list_ascii_of_string) in H.
  rewrite !chars_add_str in H. apply app_inv_tail in H.
  rewrite <- (string_of_list_ascii_of_string a), <- (string_of_list_ascii_of_string b).
  now rewrite H.
Qed.

(** [str] never renders two integers the same way. *)
Lemma str_inj (i j : Z) : Py.str i = Py.str j -> i = j.
Proof.
  unfold Py.str. intros H.
  apply DecimalZ.to_int_inj.
  apply (f_equal NilEmpty.int_of_string) in H.
  rewrite !NilEmpty.isi in H. now injection H.
Qed.

(** C6. For every update count [i], [data_loc i] is the experiment
    directory followed by ["basic-bimodal-pdf-"], the decimal rendering of
    [i] and [".out"], which is the template
    [<experiment-dir><experiment-name>-pdf-<update-count>.out]; and distinct
    update counts give distinct paths. *)
Theorem data_loc_wellformed_distinct (i j : Z) :
  data_loc i = dir +++ ("basic-bimodal-pdf-" +++ (Py.str i +++ ".out"))
  /\ data_loc i = dir +++ name +++ "-pdf-" +++ Py.str i +++ ".out"
  /\ (i <> j -> data_loc i <> data_loc j).
Proof.
  assert (E : data_loc i = dir +++ ("basic-bimodal-pdf-" +++ (Py.str i +++ ".out"))).
  { unfold data_loc. now rewrite !add_str_assoc. }
  split; [exact E |]. split.
  - rewrite E, !add_str_assoc. reflexivity.
  - intros Hij Hp. apply Hij. unfold data_loc in Hp.
    apply add_str_cancel_r in Hp. apply add_str_cancel_l in Hp.
    now apply str_inj.
Qed.

Lemma data_loc_wellformed_distinct_witness :
  40 <> 60 /\ data_loc 40 <> data_loc 60.
Proof.
  split; [lia |].
  apply (proj2 (proj2 (data_loc_wellformed_distinct 40 60))). lia.
Defined.

End Paths.

(* ================================================================= *)
(** ** Arithmetic progressions: sweeps, ranges and markers *)

Section Progressions.

Lemma within_mono (incl : bool) (c c' stop : Z) :
  c <= c' -> Py.within incl c stop = false -> Py.within incl c' stop = false.
Proof.
  unfold Py.within. destruct incl; intros Hc H.
  - apply Z.leb_gt in H. apply Z.leb_gt. lia.
  - apply Z.ltb_ge in H. apply Z.ltb_ge. lia.
Qed.

(** With enough fuel to step past [stop], the progression holds exactly
    the values [c + k * step], [k = 0, 1, 2, ...], that are within [stop]. *)
Lemma progression_In (incl : bool) (stop step : Z) (Hstep : 0 < step) :
  forall (fuel : nat) (c : Z),
    Py.within incl (c + Z.of_nat fuel * step) stop = false ->
    forall x, In x (Py.progression incl fuel c stop step) <->
              exists k, 0 <= k /\ x = c + k * step /\ Py.within incl x stop = true.
Proof.
  induction fuel as [| fuel IH]; intros c Hfuel x; simpl.
  - split; [tauto |]. intros (k & Hk & -> & Hin).
    rewrite (within_mono incl c (c + k * step) stop) in Hin; [discriminate | nia |].
    now replace (c + Z.of_nat 0 * step) with c in Hfuel by lia.
  - destruct (Py.within incl c stop) eqn:Hc.
    + simpl. rewrite IH by (rewrite <- Hfuel; f_equal; lia).
      split.
      * intros [<- | (k & Hk & -> & Hin)].
        -- exists 0. repeat split; [lia | lia | exact Hc].
        -- exists (k + 1). repeat split; [lia | lia | exact Hin].
      * intros (k & Hk & -> & Hin).
        destruct (Z.eq_dec k 0) as [-> | Hk0]; [left; lia | right].
        exists (k - 1). repeat split; [lia | lia | exact Hin].
    + split; [simpl; tauto |]. intros (k & Hk & -> & Hin).
      rewrite (within_mono incl c (c + k * step) stop) in Hin; [discriminate | nia | exact Hc].
Qed.


(** The checkpoints of a sweep, [end_] included. *)
Lemma sweep_In (start end_ step : Z) (Hstep : 0 < step) (x : Z) :
  In x (pdfplt.sweep start end_ step) <->
  exists k, 0 <= k /\ x = start + k * step /\ x <= end_.
Proof.
  unfold pdfplt.sweep. rewrite progression_In by (try assumption; apply Z.leb_gt; nia).
  split; intros (k & Hk & Hx & Hle); exists k; repeat split; try assumption.
  - now apply Z.leb_le.
  - now apply Z.leb_le.
Qed.


(** The markers, for a positive period. *)
Lemma rearr_markers_In (cmin cmax rs rp : Z) (Hrp : 0 < rp) (x : Z) :
  In x (kldplt.rearr_markers cmin cmax rs rp) <->
  exists k, 0 <= k /\ x = rs + k * rp /\ cmin <= x <= cmax.
Proof.
  unfold kldplt.rearr_markers. rewrite filter_In.
  rewrite progression_In by (try assumption; apply Z.leb_gt; nia).
  cbv beta. rewrite Z.leb_le.
  split.
  - intros [(k & Hk & Hx & Hle) Hge]. apply Z.leb_le in Hle. exists k. lia.
  - intros (k & Hk & Hx & Hge & Hle). split; [| exact Hge].
    exists k. repeat split; try assumption. now apply Z.leb_le.
Qed.

(** C2. At the configured [rearr_start = 50], [rearr_period = 100],
    [countmin = 40], [countmax = 500], the values [rearr_start + k *
    rearr_period] ([k = 0, 1, 2, ...]) inside [[countmin, countmax]] are
    exactly 50, 150, 250, 350 and 450, and these are the markers drawn. *)
Theorem rearrangement_markers_configured :
  kldplt.rearr_markers countmin countmax rearr_start rearr_period = [50; 150; 250; 350; 450]
  /\ forall x : Z,
       (exists k, 0 <= k /\ x = rearr_start + k * rearr_period /\ countmin <= x <= countmax)
       <-> In x [50; 150; 250; 350; 450].
Proof.
  assert (E : kldplt.rearr_markers countmin countmax rearr_start rearr_period
              = [50; 150; 250; 350; 450]) by reflexivity.
  split; [exact E |]. intros x.
  rewrite <- E. symmetry. apply rearr_markers_In. reflexivity.
Qed.

Lemma range_In (start stop step : Z) (Hstep : 0 < step) (x : Z) :
  In x (Py.range start stop step) <->
  exists k, 0 <= k /\ x = start + k * step /\ x < stop.
Proof.
  unfold Py.range. rewrite progression_In by (try assumption; apply Z.ltb_ge; nia).
  split; intros (k & Hk & Hx & Hlt); exists k; repeat split; try assumption.
  - now apply Z.ltb_lt.
  - now apply Z.ltb_lt.
Qed.

(** Python's own half-open [range] over the configured bounds stops at 490. *)
Lemma range_configured :
  List.length (Py.range start end_ step) = 49%nat /\ ~ In end_ (Py.range start end_ step).
Proof.
  split; [reflexivity |].
  rewrite range_In by reflexivity. intros (k & _ & _ & H). lia.
Qed.

End Progressions.

(* ================================================================= *)
(** ** Reasoning about scripts *)

Section Scripts.

Variable fs : filesystem.

Lemma bind_unfold {A B : Type} (m : script A) (k : A -> script B) (w : world) :
  bind m k fs w =
  match m fs w with
  | (w', Done a) => k a fs w'
  | (w', Raised e) => (w', Raised e)
  end.
Proof. reflexivity. Qed.

Section Invariant.

Variable P : world -> Prop.

Lemma sound_ret {A : Type} (a : A) : sound fs P (ret a).
Proof. intros w Hw. split; [exact Hw | discriminate]. Qed.

Lemma sound_get : sound fs P get.
Proof. intros w Hw. split; [exact Hw | discriminate]. Qed.

Lemma sound_modify (f : world -> world) :
  (forall w, P w -> P (f w)) -> sound fs P (modify f).
Proof. intros Hf w Hw. split; [now apply Hf | discriminate]. Qed.

Lemma sound_load (path : string) : sound fs P (load path).
Proof.
  intros w Hw. unfold load.
  destruct (fs path) eqn:E; (split; [exact Hw |]); simpl; intros e [= <-]; simpl;
    now rewrite E.
Qed.

Lemma sound_bind {A B : Type} (m : script A) (k : A -> script B) :
  sound fs P m -> (forall a, sound fs P (k a)) -> sound fs P (bind m k).
Proof.
  intros Hm Hk w Hw. rewrite bind_unfold.
  destruct (Hm w Hw) as [H1 H2].
  destruct (m fs w) as [w1 [a | e]]; simpl in *.
  - now apply Hk.
  - split; [exact H1 | intros e' [= <-]; now apply H2].
Qed.

End Invariant.

(** Structural steps of a soundness proof; [closure] settles what a state
    update does to the invariant. *)
Ltac sound_steps closure :=
  repeat first
    [ apply sound_ret
    | apply sound_get
    | apply sound_load
    | apply sound_bind; [| intros ?]
    | apply sound_modify; closure
    | match goal with
      | |- sound _ _ (match ?x with _ => _ end) => destruct x
      end ].

(** *** The files written so far do not change while drawing *)

Ltac same_written := intros ? ?; assumption.

Lemma figure_written (l : list (string * artifact)) (width height : pynum) :
  sound fs (fun w => w_written w = l) (plt.figure width height).
Proof. unfold plt.figure. sound_steps same_written. Qed.

Lemma subplot_written (l : list (string * artifact)) (nrows ncols index : nat) :
  sound fs (fun w => w_written w = l) (plt.subplot nrows ncols index).
Proof. unfold plt.subplot. sound_steps same_written. Qed.

Lemma set_title_written (l : list (string * artifact)) (ax : nat) (t : string) :
  sound fs (fun w => w_written w = l) (plt.set_title ax t).
Proof. unfold plt.set_title, plt.on_axes. sound_steps same_written. Qed.

Lemma pdfplot_bar_written (l : list (string * artifact)) ax reference path x0 x1 y0 y1 :
  sound fs (fun w => w_written w = l) (pdfplt.pdfplot_bar ax reference path x0 x1 y0 y1).
Proof. unfold pdfplt.pdfplot_bar, plt.on_axes. sound_steps same_written. Qed.

Lemma kldplot_written (l : list (string * artifact)) ax path cap cmin cmax rs rp :
  sound fs (fun w => w_written w = l) (kldplt.kldplot ax path cap cmin cmax rs rp).
Proof. unfold kldplt.kldplot, plt.on_axes. sound_steps same_written. Qed.

Lemma pdf_loop_written (l : list (string * artifact)) (all rest : list Z) :
  forall i, sound fs (fun w => w_written w = l) (pdf_loop all rest i).
Proof.
  induction rest as [| data_count rest IH]; intros i; simpl.
  - apply sound_ret.
  - apply sound_bind; [apply subplot_written | intros ax].
    apply sound_bind; [apply set_title_written | intros _].
    apply sound_bind; [apply pdfplot_bar_written | intros _].
    apply IH.
Qed.

Lemma static_figure_written (l : list (string * artifact)) :
  sound fs (fun w => w_written w = l) static_figure.
Proof.
  unfold static_figure, pdf_represented, kld.
  apply sound_bind; [apply figure_written | intros _].
  apply sound_bind; [apply pdf_loop_written | intros _].
  apply sound_bind; [apply subplot_written | intros ax].
  apply sound_bind; [apply set_title_written | intros _].
  apply kldplot_written.
Qed.

(** *** Every density picture uses the configured bounds *)

Lemma Forall_update_nth (Q : panel -> Prop) (f : panel -> panel) (ps : list panel) :
  Forall Q ps -> (forall p, Q p -> Q (f p)) ->
  forall ax, Forall Q (plt.update_nth ax f ps).
Proof.
  intros Hps Hf. induction Hps as [| p ps Hp Hps IH]; intros [| ax]; simpl;
    constructor; auto.
Qed.

Lemma on_axes_bounds (ax : nat) (f : panel -> panel) :
  (forall p, panel_ok p -> panel_ok (f p)) -> sound fs bounds_ok (plt.on_axes ax f).
Proof.
  intros Hf. apply sound_modify. intros w [H1 H2]. split; [| exact H2].
  simpl. now apply Forall_update_nth.
Qed.

Lemma figure_bounds (width height : pynum) : sound fs bounds_ok (plt.figure width height).
Proof.
  apply sound_modify. intros w [_ H2]. split; [constructor | exact H2].
Qed.

Lemma subplot_bounds (nrows ncols index : nat) :
  sound fs bounds_ok (plt.subplot nrows ncols index).
Proof.
  unfold plt.subplot.
  sound_steps ltac:(intros ? [H1 H2]; split; [| exact H2]; simpl;
                    first [ exact H1 | apply Forall_app; split; [exact H1 | repeat constructor] ]).
Qed.

Lemma set_title_bounds (ax : nat) (t : string) : sound fs bounds_ok (plt.set_title ax t).
Proof. apply on_axes_bounds. intros p Hp. exact Hp. Qed.

Lemma legend_bounds : sound fs bounds_ok plt.legend.
Proof.
  unfold plt.legend. apply sound_bind; [apply sound_get | intros w].
  destruct (w_current w); [| apply sound_ret].
  apply on_axes_bounds. intros p Hp. exact Hp.
Qed.

Lemma show_bounds : sound fs bounds_ok plt.show.
Proof. apply sound_modify. intros w Hw. exact Hw. Qed.

Lemma savefig_bounds (filename : string) : sound fs bounds_ok (plt.savefig filename).
Proof.
  intros w [H1 H2]. split; [| discriminate].
  split; [exact H1 |]. simpl. apply Forall_app. split; [exact H2 |].
  constructor; [| constructor]. unfold artifact_ok. simpl.
  apply Forall_flat_map. exact H1.
Qed.

Lemma pdfplot_bar_bounds (ax : nat) (reference : R -> Z -> R) (path : string) :
  sound fs bounds_ok (pdfplt.pdfplot_bar ax reference path xmin xmax ymin ymax).
Proof.
  unfold pdfplt.pdfplot_bar. apply sound_bind; [apply sound_load | intros rows].
  apply on_axes_bounds. intros p _. repeat constructor.
Qed.

Lemma kldplot_bounds ax path cap cmin cmax rs rp :
  sound fs bounds_ok (kldplt.kldplot ax path cap cmin cmax rs rp).
Proof.
  unfold kldplt.kldplot. apply sound_bind; [apply sound_load | intros rows].
  apply on_axes_bounds. intros p _. constructor.
Qed.

Lemma pdf_loop_bounds (all rest : list Z) :
  forall i, sound fs bounds_ok (pdf_loop all rest i).
Proof.
  induction rest as [| data_count rest IH]; intros i; simpl.
  - apply sound_ret.
  - apply sound_bind; [apply subplot_bounds | intros ax].
    apply sound_bind; [apply set_title_bounds | intros _].
    apply sound_bind; [apply pdfplot_bar_bounds | intros _].
    apply IH.
Qed.

(** *** Rendering the frames of an animation *)

Lemma render_frame_unfold (a : pdfplt.animation) (c : Z) (w : world) :
  pdfplt.render_frame a c fs w =
  match fs (pdfplt.a_data_loc a c) with
  | Absent => (w, Raised (LoadError (pdfplt.a_data_loc a c) NotFound))
  | Garbled => (w, Raised (LoadError (pdfplt.a_data_loc a c) BadContent))
  | Readable rows =>
      (w, Done {| f_checkpoint := c;
                  f_plot := {| dp_style := pdfplt.a_style a;
                               dp_reference := pdfplt.a_reference a;
                               dp_path := pdfplt.a_data_loc a c; dp_rows := rows;
                               dp_bounds := pdfplt.a_bounds a |} |})
  end.
Proof.
  unfold pdfplt.render_frame, bind, load, ret.
  destruct (fs (pdfplt.a_data_loc a c)); reflexivity.
Qed.

(** The encoder either grabs a frame for every checkpoint, in order, or
    stops at the first checkpoint that fails to load, holding the frames of
    the checkpoints before it; the world is as it was. *)
Lemma grab_frames_cases (a : pdfplt.animation) (cs : list Z) (w : world) :
  (exists frames,
      pdfplt.grab_frames a cs fs w = (w, (frames, None))
      /\ map f_checkpoint frames = cs
      /\ Forall (frame_of fs a) frames
      /\ forall c, In c cs -> readable fs (pdfplt.a_data_loc a c))
  \/ (exists frames c rest why,
      pdfplt.grab_frames a cs fs w
        = (w, (frames, Some (LoadError (pdfplt.a_data_loc a c) why)))
      /\ cs = map f_checkpoint frames ++ c :: rest
      /\ Forall (frame_of fs a) frames
      /\ load_failed fs (LoadError (pdfplt.a_data_loc a c) why)).
Proof.
  induction cs as [| c cs IH].
  - left. exists []. repeat split; [constructor | intros c []].
  - cbn [pdfplt.grab_frames]. rewrite render_frame_unfold.
    destruct (fs (pdfplt.a_data_loc a c)) as [| | rows] eqn:E.
    + right. exists [], c, cs, NotFound.
      split; [reflexivity | split; [reflexivity | split; [constructor |]]].
      simpl. now rewrite E.
    + right. exists [], c, cs, BadContent.
      split; [reflexivity | split; [reflexivity | split; [constructor |]]].
      simpl. now rewrite E.
    + destruct IH as [(frames & Em & Hc & Hf & Hr) | (frames & c' & rest & why & Em & Hc & Hf & Hl)];
        rewrite Em.
      * left. eexists. split; [reflexivity |]. split; [| split].
        -- simpl. now rewrite Hc.
        -- constructor; [| exact Hf]. repeat split; simpl; exact E.
        -- intros c' [<- | Hin]; [now exists rows | now apply Hr].
      * right. eexists. exists c', rest, why.
        split; [reflexivity |]. split; [| split; [| exact Hl]].
        -- simpl. now rewrite Hc.
        -- constructor; [| exact Hf]. repeat split; simpl; exact E.
Qed.

(** Saving an animation writes its file in either case: complete when
    every checkpoint loads, cut before the first checkpoint that does not,
    and then the load error is raised. *)
Lemma save_cases (a : pdfplt.animation) (file : string) (rate : pynum) (w : world) :
  (exists frames w',
      pdfplt.save a file rate fs w = (w', Done tt)
      /\ w_written w' = w_written w ++ [(file, Movie frames rate)]
      /\ w_panels w' = w_panels w
      /\ map f_checkpoint frames = pdfplt.a_checkpoints a
      /\ Forall (frame_of fs a) frames
      /\ forall c, In c (pdfplt.a_checkpoints a) -> readable fs (pdfplt.a_data_loc a c))
  \/ (exists frames w' c rest why,
      pdfplt.save a file rate fs w = (w', Raised (LoadError (pdfplt.a_data_loc a c) why))
      /\ w_written w' = w_written w ++ [(file, Movie frames rate)]
      /\ w_panels w' = w_panels w
      /\ pdfplt.a_checkpoints a = map f_checkpoint frames ++ c :: rest
      /\ Forall (frame_of fs a) frames
      /\ load_failed fs (LoadError (pdfplt.a_data_loc a c) why)).
Proof.
  unfold pdfplt.save.
  destruct (grab_frames_cases a (pdfplt.a_checkpoints a) w)
    as [(frames & Em & Hc & Hf & Hr) | (frames & c & rest & why & Em & Hc & Hf & Hl)];
    rewrite Em.
  - left. exists frames. eexists. split; [reflexivity |]. simpl. auto.
  - right. exists frames. eexists. exists c, rest, why. split; [reflexivity |]. simpl. auto.
Qed.

(** The animation stage: both movies are written, each with a frame per
    checkpoint; or a checkpoint fails to load while the first movie is
    encoded, which leaves that movie cut before the failing checkpoint and
    the second one unwritten. *)
Lemma pdf_animated_cases (w : world) :
  (exists fr1 fr2 w',
      pdf_animated fs w = (w', Done tt)
      /\ w_written w' = w_written w ++ [(name +++ "-errorbar.gif", Movie fr1 fps);
                                        (name +++ "-histo.gif", Movie fr2 fps)]
      /\ w_panels w' = w_panels w
      /\ map f_checkpoint fr1 = pdfplt.sweep start end_ step
      /\ map f_checkpoint fr2 = pdfplt.sweep start end_ step
      /\ Forall (frame_of fs (utd_animation Errorbar)) fr1
      /\ Forall (frame_of fs (utd_animation Bar)) fr2
      /\ forall c, In c (pdfplt.sweep start end_ step) -> readable fs (data_loc c))
  \/ (exists frames w' c rest why,
      pdf_animated fs w = (w', Raised (LoadError (data_loc c) why))
      /\ w_written w' = w_written w ++ [(name +++ "-errorbar.gif", Movie frames fps)]
      /\ w_panels w' = w_panels w
      /\ pdfplt.sweep start end_ step = map f_checkpoint frames ++ c :: rest
      /\ Forall (frame_of fs (utd_animation Errorbar)) frames
      /\ load_failed fs (LoadError (data_loc c) why)).
Proof.
  unfold pdf_animated, pdfplt.animated_pdfplot_errorbar, pdfplt.animated_pdfplot_bar,
    pdfplt.animated.
  fold configured_bounds. fold (utd_animation Errorbar). fold (utd_animation Bar).
  rewrite bind_unfold. cbn [ret]. rewrite bind_unfold.
  destruct (save_cases (utd_animation Errorbar) (name +++ "-errorbar.gif") fps w)
    as [(fr1 & w1 & E1 & Hw1 & Hp1 & Hc1 & Hf1 & Hr1)
       | (frames & w1 & c & rest & why & E1 & Hw1 & Hp1 & Hc1 & Hf1 & Hl)];
    rewrite E1.
  - rewrite bind_unfold. cbn [ret].
    destruct (save_cases (utd_animation Bar) (name +++ "-histo.gif") fps w1)
      as [(fr2 & w2 & E2 & Hw2 & Hp2 & Hc2 & Hf2 & Hr2)
         | (frames & w2 & c & rest & why & E2 & Hw2 & Hp2 & Hc2 & Hf2 & Hl)];
      rewrite E2.
    + left. exists fr1, fr2, w2. split; [reflexivity |].
      rewrite Hw2, Hw1, <- app_assoc, Hp2, Hp1. simpl. auto 10.
    + exfalso. destruct (Hr1 c) as [rows Hrows].
      * cbn [utd_animation pdfplt.a_checkpoints] in Hc2 |- *.
        rewrite Hc2. apply in_or_app. right. now left.
      * simpl in Hl, Hrows. rewrite Hrows in Hl. exact Hl.
  - right. exists frames, w1, c, rest, why. simpl in *. auto 10.
Qed.

(** The saving stage never fails: it writes the figure twice. *)
Lemma save_plot_spec (w : world) :
  exists w',
    save_plot fs w = (w', Done tt)
    /\ w_written w' = w_written w ++ [(name +++ ".pdf", Figure (w_panels w'));
                                      (name +++ ".png", Figure (w_panels w'))].
Proof.
  unfold save_plot, plt.legend, plt.savefig, plt.write, plt.show, plt.on_axes,
    bind, get, modify, ret.
  destruct (w_current w); simpl; eexists; (split; [reflexivity |]); simpl;
    now rewrite <- app_assoc.
Qed.

Lemma save_plot_bounds : sound fs bounds_ok save_plot.
Proof.
  unfold save_plot.
  apply sound_bind; [apply legend_bounds | intros _].
  apply sound_bind; [apply savefig_bounds | intros _].
  apply sound_bind; [apply savefig_bounds | intros _].
  apply show_bounds.
Qed.

Lemma static_figure_bounds : sound fs bounds_ok static_figure.
Proof.
  unfold static_figure, pdf_represented, kld.
  apply sound_bind; [apply figure_bounds | intros _].
  apply sound_bind; [apply pdf_loop_bounds | intros _].
  apply sound_bind; [apply subplot_bounds | intros ax].
  apply sound_bind; [apply set_title_bounds | intros _].
  apply kldplot_bounds.
Qed.

Lemma frames_ok (s : style) (frames : list frame) :
  Forall (frame_of fs (utd_animation s)) frames ->
  Forall (eq configured_bounds) (map (fun f => dp_bounds (f_plot f)) frames).
Proof.
  intros H. apply Forall_map. apply Forall_impl with (2 := H).
  intros f (Hb & _). now rewrite Hb.
Qed.

Lemma pdf_animated_bounds : sound fs bounds_ok pdf_animated.
Proof.
  intros w [H1 H2].
  destruct (pdf_animated_cases w)
    as [(fr1 & fr2 & w' & E & Hw & Hp & _ & _ & Hf1 & Hf2 & _)
       | (frames & w' & c & rest & why & E & Hw & Hp & _ & Hf & Hl)];
    rewrite E; simpl.
  - split; [| discriminate]. split; [now rewrite Hp |].
    rewrite Hw. apply Forall_app. split; [exact H2 |].
    constructor; [| constructor; [| constructor]]; simpl; unfold artifact_ok; simpl;
      eapply frames_ok; eassumption.
  - split; [| intros e [= <-]; exact Hl]. split; [now rewrite Hp |].
    rewrite Hw. apply Forall_app. split; [exact H2 |].
    constructor; [| constructor]. simpl. unfold artifact_ok. simpl.
    eapply frames_ok; eassumption.
Qed.

Lemma main_bounds : sound fs bounds_ok main.
Proof.
  unfold main.
  apply sound_bind; [apply static_figure_bounds | intros _].
  apply sound_bind; [apply save_plot_bounds | intros _].
  apply pdf_animated_bounds.
Qed.

(** What a run leaves behind, by outcome: all four files when it completes;
    nothing when the static figure fails; the static figure and a cut first
    movie when a checkpoint of the sweep fails to load. *)
Lemma run_cases :
  (exists w ps fr1 fr2,
      run fs = (w, Done tt)
      /\ w_written w = [(name +++ ".pdf", Figure ps); (name +++ ".png", Figure ps);
                        (name +++ "-errorbar.gif", Movie fr1 fps);
                        (name +++ "-histo.gif", Movie fr2 fps)]
      /\ map f_checkpoint fr1 = pdfplt.sweep start end_ step
      /\ map f_checkpoint fr2 = pdfplt.sweep start end_ step
      /\ forall c, In c (pdfplt.sweep start end_ step) -> readable fs (data_loc c))
  \/ (exists w e,
      run fs = (w, Raised e)
      /\ load_failed fs e
      /\ w_written w = [])
  \/ (exists w ps frames c rest why,
      run fs = (w, Raised (LoadError (data_loc c) why))
      /\ load_failed fs (LoadError (data_loc c) why)
      /\ w_written w = [(name +++ ".pdf", Figure ps); (name +++ ".png", Figure ps);
                        (name +++ "-errorbar.gif", Movie frames fps)]
      /\ pdfplt.sweep start end_ step = map f_checkpoint frames ++ c :: rest
      /\ Forall (frame_of fs (utd_animation Errorbar)) frames).
Proof.
  unfold run, main. rewrite bind_unfold.
  destruct (static_figure_written [] initial_world eq_refl) as [Hw1 He1].
  destruct (static_figure fs initial_world) as [w1 [[] | e]]; simpl in Hw1, He1.
  - rewrite bind_unfold.
    destruct (save_plot_spec w1) as (w2 & E2 & Hw2). rewrite E2.
    rewrite Hw1 in Hw2. simpl in Hw2.
    destruct (pdf_animated_cases w2)
      as [(fr1 & fr2 & w3 & E & Hw & Hp & Hc1 & Hc2 & _ & _ & Hr)
         | (frames & w3 & c & rest & why & E & Hw & Hp & Hc & Hf & Hl)];
      rewrite E.
    + left. exists w3, (w_panels w2), fr1, fr2. rewrite Hw, Hw2. simpl. auto.
    + right. right. exists w3, (w_panels w2), frames, c, rest, why.
      rewrite Hw, Hw2. simpl. auto.
  - right. left. exists w1, e. split; [reflexivity |]. split; [now apply He1 | exact Hw1].
Qed.

End Scripts.

(* ================================================================= *)
(** ** The static figure *)

Lemma all_readable_readable (path : string) : readable all_readable path.
Proof. now exists [(0, 1)%Q]. Qed.

(** C3. With [data_counts = [40, 60, 340]] and the sample files in place,
    the static figure has [len(data_counts) + 1 = 4] panels: one density
    panel per checkpoint in list order, then the divergence panel.  The
    [i]-th density panel is titled
    ["(" + chr(ord('a') + i) + ") pdf at update count: " + str(data_count)],
    the last one ["(d) KL-divergence"], so the titles start with (a), (b),
    (c), (d) in that order. *)
Theorem static_figure_panels (fs : filesystem) :
  (forall c, In c data_counts -> readable fs (data_loc c)) ->
  readable fs kld_data_loc ->
  snd (static_figure fs initial_world) = Done tt
  /\ List.length (w_panels (fst (static_figure fs initial_world)))
     = (Py.len data_counts + 1)%nat
  /\ List.length (w_panels (fst (static_figure fs initial_world))) = 4%nat
  /\ map p_title (w_panels (fst (static_figure fs initial_world)))
     = ["(a) pdf at update count: 40"; "(b) pdf at update count: 60";
        "(c) pdf at update count: 340"; "(d) KL-divergence"]
  /\ map p_index (w_panels (fst (static_figure fs initial_world))) = [1; 2; 3; 4]%nat
  /\ (forall (i : nat) (data_count : Z),
        nth_error data_counts i = Some data_count ->
        exists p d,
          nth_error (w_panels (fst (static_figure fs initial_world))) i = Some p
          /\ p_title p = "(" +++ Py.chr (Py.ord "a" + i) +++ ")"
                             +++ " pdf at update count: " +++ Py.str data_count
          /\ p_drawing p = Density d
          /\ dp_path d = data_loc data_count)
  /\ (exists p k,
        nth_error (w_panels (fst (static_figure fs initial_world))) (Py.len data_counts)
          = Some p
        /\ p_title p = "(d) KL-divergence"
        /\ p_drawing p = Divergence k).
Proof.
  intros Hc Hk.
  destruct (Hc 40) as [r40 E40]; [simpl; tauto |].
  destruct (Hc 60) as [r60 E60]; [simpl; tauto |].
  destruct (Hc 340) as [r340 E340]; [simpl; tauto |].
  destruct Hk as [rk Ek].
  destruct (static_figure fs initial_world) as [w o] eqn:E.
  cbv -[expected] in E, E40, E60, E340, Ek.
  rewrite E40 in E. cbv -[expected] in E.
  rewrite E60 in E. cbv -[expected] in E.
  rewrite E340 in E. cbv -[expected] in E.
  rewrite Ek in E. cbv -[expected] in E.
  injection E as <- <-.
  repeat (split; [reflexivity |]). split.
  - intros [| [| [| i]]] data_count H; simpl in H;
      try (injection H as <-; do 2 eexists; repeat split; reflexivity).
    destruct i; discriminate.
  - do 2 eexists. repeat split; reflexivity.
Qed.

Lemma static_figure_panels_witness :
  (forall c, In c data_counts -> readable all_readable (data_loc c))
  /\ readable all_readable kld_data_loc
  /\ List.length (w_panels (fst (static_figure all_readable initial_world))) = 4%nat.
Proof.
  assert (Hc : forall c, In c data_counts -> readable all_readable (data_loc c))
    by (intros c _; apply all_readable_readable).
  assert (Hk : readable all_readable kld_data_loc) by apply all_readable_readable.
  split; [exact Hc |]. split; [exact Hk |].
  exact (proj1 (proj2 (proj2 (static_figure_panels all_readable Hc Hk)))).
Defined.

(* ================================================================= *)
(** ** The animations *)




(* ================================================================= *)
(** ** Axis bounds *)

(** C7. Every density panel of the static figure and every frame of both
    animations is drawn with the same four axis bounds, [xmin = -5],
    [xmax = 5], [ymin = 0], [ymax = 0.3]: no two render calls of a run
    differ in their bounds. *)
Theorem axis_bounds_identical (fs : filesystem) :
  Forall (eq configured_bounds) (bounds_used (fst (run fs)))
  /\ configured_bounds
     = {| b_xmin := PyInt (-5); b_xmax := PyInt 5; b_ymin := PyInt 0; b_ymax := PyFloat 0.3 |}
  /\ (forall b1 b2 : axis_bounds,
        In b1 (bounds_used (fst (run fs))) -> In b2 (bounds_used (fst (run fs))) -> b1 = b2)
  /\ List.length (bounds_used (fst (run all_readable))) = 109%nat.
Proof.
  assert (H : Forall (eq configured_bounds) (bounds_used (fst (run fs)))).
  { destruct (main_bounds fs initial_world) as [[H1 H2] _]; [split; constructor |].
    unfold bounds_used, run. apply Forall_app. split; apply Forall_flat_map.
    - exact H1.
    - exact H2. }
  split; [exact H |]. split; [reflexivity |]. split; [| reflexivity].
  rewrite Forall_forall in H. intros b1 b2 H1 H2.
  now rewrite <- (H b1 H1), <- (H b2 H2).
Qed.

(* ================================================================= *)
(** ** Output files *)

(** C8. A run that completes writes exactly four files, named by the
    experiment name and a suffix: the static figure as [name + ".pdf"] and
    [name + ".png"], then the animations as [name + "-errorbar.gif"] and
    [name + "-histo.gif"], with [name = "basic-bimodal"]. *)
Theorem complete_run_outputs (fs : filesystem) :
  snd (run fs) = Done tt ->
  written_names (fst (run fs))
    = [name +++ ".pdf"; name +++ ".png"; name +++ "-errorbar.gif"; name +++ "-histo.gif"]
  /\ written_names (fst (run fs))
     = ["basic-bimodal.pdf"; "basic-bimodal.png";
        "basic-bimodal-errorbar.gif"; "basic-bimodal-histo.gif"]
  /\ map (fun fa => is_movie (snd fa)) (w_written (fst (run fs))) = [false; false; true; true]
  /\ List.length (w_written (fst (run fs))) = 4%nat.
Proof.
  destruct (run_cases fs)
    as [(w & ps & fr1 & fr2 & E & Hw & _)
       | [(w & e & E & _) | (w & ps & fr & c & rest & why & E & _)]];
    rewrite E; simpl; try discriminate.
  intros _. unfold written_names. rewrite Hw. repeat split.
Qed.

Lemma complete_run_outputs_witness :
  snd (run all_readable) = Done tt
  /\ written_names (fst (run all_readable))
     = ["basic-bimodal.pdf"; "basic-bimodal.png";
        "basic-bimodal-errorbar.gif"; "basic-bimodal-histo.gif"].
Proof.
  assert (H : snd (run all_readable) = Done tt) by reflexivity.
  split; [exact H |].
  exact (proj1 (proj2 (complete_run_outputs all_readable H))).
Defined.

(* ================================================================= *)
(** ** Load failures *)






(* ================================================================= *)
(** * Further properties of the script *)

(* ================================================================= *)
(** ** The shape of the reference density *)

Section Shape.
Local Open Scope R_scope.

Lemma expected_Rabs (x : R) (i : Z) : expected (Rabs x) i = expected x i.
Proof.
  unfold Rabs. destruct (Rcase_abs x); [apply expected_even | reflexivity].
Qed.

(** X2. Between the modes the density dips: on [[-1, 1]] it stays below its
    value at the modes [2] and [-2]. *)
Theorem expected_dip (x : R) (i : Z) :
  -1 <= x <= 1 -> expected x i < expected 2 i /\ expected x i < expected (-2) i.
Proof.
  intros Hx.
  assert (H : expected x i < 0.17).
  { rewrite <- expected_Rabs.
    assert (Ha : 0 <= Rabs x <= 1).
    { split; [apply Rabs_pos |]. unfold Rabs. destruct (Rcase_abs x); lra. }
    set (a := Rabs x) in *. unfold expected.
    pose proof (exp_ineq1_le (1 / 2)) as E2. pose proof exp_2_lower as E20.
    assert (A : norm.pdf (a - 2) < / (2.5065 * 1.5)) by (apply (pdf_upper _ (1 / 2)); nra).
    assert (B : norm.pdf (a + 2) < / (2.5065 * 7.14)) by (apply (pdf_upper _ 2); nra).
    lra. }
  pose proof (expected_at_mode i) as [Hm Hs]. rewrite Hs. lra.
Qed.

Lemma expected_dip_witness :
  -1 <= 0 <= 1 /\ expected 0 0 < expected 2 0.
Proof.
  assert (H : -1 <= 0 <= 1) by lra.
  split; [exact H |]. exact (proj1 (expected_dip 0 0 H)).
Defined.

(** X5. At the edges of the plotted window and beyond, the reference curve is
    below [0.004], less than a seventieth of the vertical range. *)
Theorem expected_outside_window (x : R) (i : Z) :
  x <= num_val xmin \/ num_val xmax <= x -> expected x i < 0.004.
Proof.
  unfold xmin, xmax, num_val. intros Hx.
  rewrite <- expected_Rabs.
  assert (Ha : 5 <= Rabs x).
  { unfold Rabs. destruct (Rcase_abs x); destruct Hx; lra. }
  set (a := Rabs x) in *. unfold expected.
  assert (E45 : 76 <= exp (9 / 2)).
  { replace (9 / 2) with (4 + 1 / 2) by lra. rewrite exp_plus.
    pose proof exp_4_lower. pose proof (exp_ineq1_le (1 / 2)). nra. }
  pose proof exp_6_lower as E60.
  assert (A : norm.pdf (a - 2) < / (2.5065 * 76)) by (apply (pdf_upper _ (9 / 2)); nra).
  assert (B : norm.pdf (a + 2) < / (2.5065 * 385)) by (apply (pdf_upper _ (49 / 8)); nra).
  lra.
Qed.

Lemma expected_outside_window_witness :
  (6 <= num_val xmin \/ num_val xmax <= 6) /\ expected 6 0 < 0.004.
Proof.
  assert (H : 6 <= num_val xmin \/ num_val xmax <= 6)
    by (right; unfold xmax, num_val; lra).
  split; [exact H |]. exact (expected_outside_window 6 0 H).
Defined.

Lemma expected_window_lower_witness :
  num_val xmin <= 0 <= num_val xmax /\ / 1219 < expected 0 0.
Proof.
  assert (H : num_val xmin <= 0 <= num_val xmax)
    by (unfold xmin, xmax, num_val; lra).
  split; [exact H |]. exact (expected_window_lower 0 0 H).
Defined.

End Shape.

(* ================================================================= *)
(** ** File names and titles *)

Section Names.

(** X6. No checkpoint path is the path of the divergence trace. *)
Theorem data_loc_not_kld (i : Z) : data_loc i <> kld_data_loc.
Proof.
  unfold data_loc, kld_data_loc. rewrite !add_str_assoc. intros H.
  apply add_str_cancel_l in H. cbn in H. discriminate H.
Qed.

(** X7. Whatever the experiment is called, the four output names differ from
    one another: no artifact overwrites another. *)
Theorem output_names_distinct (n : string) : NoDup (output_names n).
Proof.
  unfold output_names.
  repeat constructor; simpl; intros H;
    repeat (destruct H as [H | H]; [apply add_str_cancel_l in H; discriminate H |]);
    exact H.
Qed.

Lemma first_char_add_str (a b : string) (c : ascii) (a' : string) :
  a = String c a' -> exists t, a +++ b = String c t.
Proof. intros ->. now exists (a' +++ b). Qed.

(** X8. The script never writes over what it reads: no output name is a
    checkpoint path or the trace path. *)
Theorem outputs_not_inputs (i : Z) :
  ~ In (data_loc i) (output_names name) /\ ~ In kld_data_loc (output_names name).
Proof.
  assert (Hd : exists t, data_loc i = String "." t).
  { unfold data_loc. rewrite !add_str_assoc. eapply first_char_add_str. reflexivity. }
  destruct Hd as [t Ht]. rewrite Ht.
  split; cbn; intros H; repeat (destruct H as [H | H]; [discriminate H |]); exact H.
Qed.

Lemma ascii_of_nat_inj (n m : nat) :
  (n < 256)%nat -> (m < 256)%nat -> ascii_of_nat n = ascii_of_nat m -> n = m.
Proof.
  intros Hn Hm H. apply (f_equal nat_of_ascii) in H.
  now rewrite !nat_ascii_embedding in H.
Qed.

Lemma annotation_unfold (i : nat) (c : Z) :
  annotation i c
  = String "(" (String (ascii_of_nat (97 + i)) (") pdf at update count: " +++ Py.str c)).
Proof.
  unfold annotation. rewrite !add_str_assoc. reflexivity.
Qed.

(** X9. Titles of the density panels, within the alphabet: the label is the
    [i]-th lower-case letter, and two titles agree only for the same panel
    position and the same update count.  The 27th panel would be labelled
    with an opening brace. *)
Theorem annotation_labels (i j : nat) (c d : Z) :
  (i < 26)%nat -> (j < 26)%nat ->
  (annotation i c = annotation j d <-> i = j /\ c = d)
  /\ (exists letter,
        annotation i c = "(" +++ String letter ") pdf at update count: " +++ Py.str c
        /\ (nat_of_ascii "a" <= nat_of_ascii letter <= nat_of_ascii "z")%nat
        /\ nat_of_ascii letter = (nat_of_ascii "a" + i)%nat)
  /\ annotation 26 c = "({) pdf at update count: " +++ Py.str c.
Proof.
  intros Hi Hj. split; [| split].
  - split; [| now intros [-> ->]].
    rewrite !annotation_unfold. intros [= Hl Hr].
    apply ascii_of_nat_inj in Hl; [| lia | lia].
    apply str_inj in Hr. lia.
  - exists (ascii_of_nat (97 + i)). split; [apply annotation_unfold |].
    rewrite nat_ascii_embedding by lia. cbn. lia.
  - apply annotation_unfold.
Qed.

Lemma annotation_labels_witness :
  (0 < 26)%nat /\ (1 < 26)%nat /\ annotation 0 40 <> annotation 1 40.
Proof.
  assert (H0 : (0 < 26)%nat) by lia. assert (H1 : (1 < 26)%nat) by lia.
  split; [exact H0 |]. split; [exact H1 |].
  intros H. apply (proj1 (annotation_labels 0 1 40 40 H0 H1)) in H.
  destruct H as [H _]. discriminate H.
Defined.

End Names.

(* ================================================================= *)
(** ** The loop over the static checkpoints *)

Section Loop.

Variable fs : filesystem.

Lemma find_cell_none (nrows ncols index : nat) (ps : list panel) :
  Forall (fun p => p_index p <> index) ps ->
  forall k, plt.find_cell nrows ncols index ps k = None.
Proof.
  induction 1 as [| p ps Hp _ IH]; intros k; simpl; [reflexivity |].
  unfold plt.same_cell. apply Nat.eqb_neq in Hp. rewrite Hp, andb_false_r. apply IH.
Qed.

Lemma update_nth_last (f : panel -> panel) (ps : list panel) (p : panel) :
  plt.update_nth (List.length ps) f (ps ++ [p]) = ps ++ [f p].
Proof. induction ps as [| q ps IH]; simpl; [reflexivity | now rewrite IH]. Qed.

(** One turn of the loop on a figure whose [i] panels occupy the cells up
    to [i]: a panel is added and titled; it is drawn if the checkpoint file
    loads, and the loop stops there if it does not. *)
Lemma pdf_loop_cons (all : list Z) (c : Z) (rest : list Z) (i : nat) (w : world) :
  List.length (w_panels w) = i ->
  Forall (fun p => (p_index p <= i)%nat) (w_panels w) ->
  pdf_loop all (c :: rest) i fs w =
  match fs (data_loc c) with
  | Readable rows =>
      pdf_loop all rest (i + 1) fs (plt.add_panel (titled_panel all i c (bar_drawing c rows)) w)
  | Absent =>
      (plt.add_panel (titled_panel all i c Blank) w, Raised (LoadError (data_loc c) NotFound))
  | Garbled =>
      (plt.add_panel (titled_panel all i c Blank) w, Raised (LoadError (data_loc c) BadContent))
  end.
Proof.
  intros Hlen Hidx.
  assert (Hfind : plt.find_cell 1 (Py.len all + 1) (i + 1) (w_panels w) 0 = None).
  { apply find_cell_none. apply Forall_impl with (2 := Hidx). intros p Hp. lia. }
  cbn [pdf_loop].
  cbv [bind plt.subplot plt.set_title pdfplt.pdfplot_bar plt.on_axes load get modify ret].
  rewrite Hfind.
  cbv [bind plt.add_panel w_panels w_figsize w_current w_written w_shown].
  rewrite <- Hlen, update_nth_last.
  destruct (fs (data_loc c)) as [| | rows]; try reflexivity.
  rewrite update_nth_last. reflexivity.
Qed.

(** The loop from any counter, when every remaining file loads. *)
Lemma pdf_loop_from (all : list Z) :
  forall (rest : list Z) (i : nat) (w : world),
    List.length (w_panels w) = i ->
    Forall (fun p => (p_index p <= i)%nat) (w_panels w) ->
    (forall c, In c rest -> readable fs (data_loc c)) ->
    exists w' new,
      pdf_loop all rest i fs w = (w', Done (i + Py.len rest)%nat)
      /\ w_panels w' = w_panels w ++ new
      /\ map p_index new = seq (i + 1) (Py.len rest)
      /\ map p_title new = annotations i rest
      /\ map drawn_path new = map (fun c => Some (data_loc c)) rest
      /\ Forall (fun p => p_nrows p = 1%nat /\ p_ncols p = (Py.len all + 1)%nat
                          /\ p_legend p = false
                          /\ panel_bounds p = [configured_bounds]) new
      /\ w_written w' = w_written w.
Proof.
  induction rest as [| c rest IH]; intros i w Hlen Hidx Hread.
  - exists w, []. cbn. rewrite Nat.add_0_r, app_nil_r. repeat split. constructor.
  - rewrite pdf_loop_cons by assumption.
    destruct (Hread c (or_introl eq_refl)) as [rows ->].
    destruct (IH (i + 1)%nat (plt.add_panel (titled_panel all i c (bar_drawing c rows)) w))
      as (w' & new & E & Hp & Hi & Ht & Hd & Hf & Hw).
    + cbn. rewrite length_app. cbn. lia.
    + cbn. apply Forall_app. split.
      * apply Forall_impl with (2 := Hidx). intros p Hp. lia.
      * constructor; [cbn; lia | constructor].
    + intros c' Hc'. apply Hread. now right.
    + exists w', (titled_panel all i c (bar_drawing c rows) :: new).
      rewrite E. cbn in Hp. rewrite <- app_assoc in Hp. cbn in Hp.
      replace (i + Py.len (c :: rest))%nat with (i + 1 + Py.len rest)%nat
        by (unfold Py.len; cbn [List.length]; lia).
      split; [reflexivity |].
      split; [exact Hp |]. cbn [map Py.len List.length seq annotations].
      rewrite Hi, Ht, Hd. replace (S (i + 1)) with (i + 1 + 1)%nat by lia.
      repeat split; try reflexivity; [| exact Hw].
      constructor; [| exact Hf]. repeat split.
Qed.

End Loop.

(** X10. For any list of at most 159 checkpoints whose files load (the
    labels [chr(ord('a') + i)] then stay below code point 256), the loop on
    an empty figure returns [len(data_counts)] and leaves one panel per
    checkpoint, in list order: cells 1, 2, ... of a grid one cell wider than the list,
    so that the last cell stays free; each panel is titled by its position
    and update count and drawn from that checkpoint's file with the
    configured bounds, and no file is written. *)
Theorem pdf_loop_panels (fs : filesystem) (all : list Z) (w : world) :
  (Py.len all <= 159)%nat ->
  w_panels w = [] ->
  (forall c, In c all -> readable fs (data_loc c)) ->
  exists w',
    pdf_loop all all 0 fs w = (w', Done (Py.len all))
    /\ map p_index (w_panels w') = seq 1 (Py.len all)
    /\ map p_title (w_panels w') = annotations 0 all
    /\ map drawn_path (w_panels w') = map (fun c => Some (data_loc c)) all
    /\ Forall (fun p => p_nrows p = 1%nat /\ p_ncols p = (Py.len all + 1)%nat
                        /\ panel_bounds p = [configured_bounds]) (w_panels w')
    /\ ~ In (Py.len all + 1)%nat (map p_index (w_panels w'))
    /\ w_written w' = w_written w.
Proof.
  intros _ Hw Hread.
  destruct (pdf_loop_from fs all all 0%nat w) as (w' & new & E & Hp & Hi & Ht & Hd & Hf & Hwr).
  - now rewrite Hw.
  - rewrite Hw. constructor.
  - exact Hread.
  - rewrite Hw in Hp. cbn in Hp, E, Hi. exists w'. rewrite Hp.
    repeat split; try assumption.
    + apply Forall_impl with (2 := Hf). intros p (Hr & Hc & _ & Hb). now repeat split.
    + rewrite Hi, in_seq. lia.
Qed.

Lemma pdf_loop_panels_witness :
  (Py.len [7; 8] <= 159)%nat
  /\ w_panels initial_world = []
  /\ (forall c, In c [7; 8] -> readable all_readable (data_loc c))
  /\ exists w', pdf_loop [7; 8] [7; 8] 0 all_readable initial_world = (w', Done 2%nat).
Proof.
  assert (Hw : w_panels initial_world = []) by reflexivity.
  assert (Hr : forall c, In c [7; 8] -> readable all_readable (data_loc c))
    by (intros c _; apply all_readable_readable).
  assert (Hn : (Py.len [7; 8] <= 159)%nat) by (cbn; lia).
  split; [exact Hn |]. split; [exact Hw |]. split; [exact Hr |].
  destruct (pdf_loop_panels all_readable [7; 8] initial_world Hn Hw Hr) as (w' & E & _).
  exists w'. exact E.
Defined.

(** X11. With fewer than 159 checkpoints before it (so that its label stays
    below code point 256), the loop stops at the first checkpoint whose file
    does not load: the load error of that file is raised, the panels of the
    checkpoints before it are complete, and the panel of the failing one is
    there already, titled but blank, since the title is set before the file
    is read. *)
Theorem pdf_loop_stops (fs : filesystem) (pre : list Z) (c : Z) (post : list Z) (w : world) :
  (Py.len pre < 159)%nat ->
  w_panels w = [] ->
  (forall c', In c' pre -> readable fs (data_loc c')) ->
  ~ readable fs (data_loc c) ->
  exists w' why done_ last,
    pdf_loop (pre ++ c :: post) (pre ++ c :: post) 0 fs w
      = (w', Raised (LoadError (data_loc c) why))
    /\ load_failed fs (LoadError (data_loc c) why)
    /\ w_panels w' = done_ ++ [last]
    /\ map drawn_path done_ = map (fun c' => Some (data_loc c')) pre
    /\ p_title last = annotation (Py.len pre) c
    /\ p_drawing last = Blank
    /\ w_written w' = w_written w.
Proof.
  intros _ Hw Hread Hbad.
  set (all := pre ++ c :: post).
  assert (G : forall (pre' : list Z) (i : nat) (w0 : world),
             List.length (w_panels w0) = i ->
             Forall (fun p => (p_index p <= i)%nat) (w_panels w0) ->
             (forall c', In c' pre' -> readable fs (data_loc c')) ->
             exists w' why new last,
               pdf_loop all (pre' ++ c :: post) i fs w0
                 = (w', Raised (LoadError (data_loc c) why))
               /\ load_failed fs (LoadError (data_loc c) why)
               /\ w_panels w' = w_panels w0 ++ new ++ [last]
               /\ map drawn_path new = map (fun c' => Some (data_loc c')) pre'
               /\ p_title last = annotation (i + Py.len pre') c
               /\ p_drawing last = Blank
               /\ w_written w' = w_written w0).
  { induction pre' as [| c' pre' IH]; intros i w0 Hlen Hidx Hr.
    - cbn [app]. rewrite pdf_loop_cons by assumption.
      destruct (fs (data_loc c)) as [| | rows] eqn:E.
      + exists (plt.add_panel (titled_panel all i c Blank) w0), NotFound, [],
          (titled_panel all i c Blank).
        split; [reflexivity |]. split; [unfold load_failed; now rewrite E |].
        split; [reflexivity |]. split; [reflexivity |].
        split; [cbn [titled_panel p_title Py.len List.length]; now rewrite Nat.add_0_r |].
        split; reflexivity.
      + exists (plt.add_panel (titled_panel all i c Blank) w0), BadContent, [],
          (titled_panel all i c Blank).
        split; [reflexivity |]. split; [unfold load_failed; now rewrite E |].
        split; [reflexivity |]. split; [reflexivity |].
        split; [cbn [titled_panel p_title Py.len List.length]; now rewrite Nat.add_0_r |].
        split; reflexivity.
      + exfalso. apply Hbad. now exists rows.
    - cbn [app]. rewrite pdf_loop_cons by assumption.
      destruct (Hr c' (or_introl eq_refl)) as [rows ->].
      destruct (IH (i + 1)%nat (plt.add_panel (titled_panel all i c' (bar_drawing c' rows)) w0))
        as (w' & why & new & last & E & Hl & Hp & Hd & Ht & Hb & Hwr).
      + cbn. rewrite length_app. cbn. lia.
      + cbn. apply Forall_app. split.
        * apply Forall_impl with (2 := Hidx). intros p Hp. lia.
        * constructor; [cbn; lia | constructor].
      + intros c'' Hc''. apply Hr. now right.
      + exists w', why, (titled_panel all i c' (bar_drawing c' rows) :: new), last.
        rewrite E. cbn in Hp. rewrite <- app_assoc in Hp. cbn in Hp.
        repeat split; try assumption.
        * cbn. now rewrite Hd.
        * rewrite Ht. f_equal. unfold Py.len. cbn [List.length]. lia. }
  destruct (G pre 0%nat w) as (w' & why & new & last & E & Hl & Hp & Hd & Ht & Hb & Hwr).
  - now rewrite Hw.
  - rewrite Hw. constructor.
  - exact Hread.
  - exists w', why, new, last. rewrite Hw in Hp. cbn in Hp, Ht.
    repeat split; assumption.
Qed.

Lemma pdf_loop_stops_witness :
  (Py.len [240] < 159)%nat
  /\ w_panels initial_world = []
  /\ (forall c', In c' [240] -> readable (missing_checkpoint 250) (data_loc c'))
  /\ ~ readable (missing_checkpoint 250) (data_loc 250)
  /\ exists w' why,
       pdf_loop [240; 250; 260] [240; 250; 260] 0 (missing_checkpoint 250) initial_world
       = (w', Raised (LoadError (data_loc 250) why)).
Proof.
  assert (Hw : w_panels initial_world = []) by reflexivity.
  assert (Hr : forall c', In c' [240] -> readable (missing_checkpoint 250) (data_loc c')).
  { intros c' [<- | []]. exists [(0, 1)%Q]. reflexivity. }
  assert (Hb : ~ readable (missing_checkpoint 250) (data_loc 250)).
  { intros [rows H]. vm_compute in H. discriminate H. }
  assert (Hn : (Py.len [240] < 159)%nat) by (cbn; lia).
  split; [exact Hn |]. split; [exact Hw |]. split; [exact Hr |]. split; [exact Hb |].
  destruct (pdf_loop_stops (missing_checkpoint 250) [240] 250 [260] initial_world Hn Hw Hr Hb)
    as (w' & why & done_ & last & E & _).
  exists w', why. exact E.
Defined.

(* ================================================================= *)
(** ** Whole runs *)

Section Inversion.

Variable fs : filesystem.

Lemma bind_done {A B : Type} (m : script A) (k : A -> script B) (w w' : world) (b : B) :
  bind m k fs w = (w', Done b) ->
  exists w1 a, m fs w = (w1, Done a) /\ k a fs w1 = (w', Done b).
Proof.
  rewrite bind_unfold. destruct (m fs w) as [w1 [a | e]]; [| discriminate].
  intros H. now exists w1, a.
Qed.

Lemma load_done (path : string) (w w' : world) (rows : samples) :
  load path fs w = (w', Done rows) -> fs path = Readable rows.
Proof.
  unfold load. destruct (fs path); intros [= _ <-]. reflexivity.
Qed.

Lemma pdfplot_bar_done ax reference path x0 x1 y0 y1 (w w' : world) :
  pdfplt.pdfplot_bar ax reference path x0 x1 y0 y1 fs w = (w', Done tt) -> readable fs path.
Proof.
  unfold pdfplt.pdfplot_bar. intros H.
  apply bind_done in H as (w1 & rows & H & _). apply load_done in H. now exists rows.
Qed.

Lemma pdf_loop_done (all : list Z) :
  forall (rest : list Z) (i n : nat) (w w' : world),
    pdf_loop all rest i fs w = (w', Done n) ->
    forall c, In c rest -> readable fs (data_loc c).
Proof.
  induction rest as [| c0 rest IH]; intros i n w w' H c Hc; [destruct Hc |].
  cbn [pdf_loop] in H.
  apply bind_done in H as (w1 & ax & _ & H).
  apply bind_done in H as (w2 & [] & _ & H).
  apply bind_done in H as (w3 & [] & Hbar & H).
  destruct Hc as [<- | Hc].
  - now apply pdfplot_bar_done in Hbar.
  - now apply (IH _ _ _ _ H).
Qed.

(** A static figure that is completed has read its four files. *)
Lemma static_figure_done (w w' : world) :
  static_figure fs w = (w', Done tt) ->
  (forall c, In c data_counts -> readable fs (data_loc c)) /\ readable fs kld_data_loc.
Proof.
  unfold static_figure, pdf_represented, kld. intros H.
  apply bind_done in H as (w1 & [] & _ & H).
  apply bind_done in H as (w2 & n & Hloop & H).
  apply bind_done in H as (w3 & ax & _ & H).
  apply bind_done in H as (w4 & [] & _ & H).
  unfold kldplt.kldplot in H.
  apply bind_done in H as (w5 & rows & H & _). apply load_done in H.
  split; [now apply (pdf_loop_done _ _ _ _ _ _ Hloop) | now exists rows].
Qed.

End Inversion.

(** With its four files in place, the static figure is completed; what it
    looks like once [# Save Plot] has run. *)
Lemma static_saved (fs : filesystem) :
  (forall c, In c data_counts -> readable fs (data_loc c)) ->
  readable fs kld_data_loc ->
  exists w1 w2,
    static_figure fs initial_world = (w1, Done tt)
    /\ save_plot fs w1 = (w2, Done tt)
    /\ w_written w2 = [(name +++ ".pdf", Figure (w_panels w2));
                       (name +++ ".png", Figure (w_panels w2))]
    /\ map p_title (w_panels w2)
       = ["(a) pdf at update count: 40"; "(b) pdf at update count: 60";
          "(c) pdf at update count: 340"; "(d) KL-divergence"]
    /\ map drawn_path (w_panels w2)
       = [Some (data_loc 40); Some (data_loc 60); Some (data_loc 340); Some kld_data_loc]
    /\ exists p, nth_error (w_panels w2) 3 = Some p
                 /\ p_title p = "(d) KL-divergence" /\ p_legend p = true.
Proof.
  intros Hc Hk.
  destruct (Hc 40) as [r40 E40]; [simpl; tauto |].
  destruct (Hc 60) as [r60 E60]; [simpl; tauto |].
  destruct (Hc 340) as [r340 E340]; [simpl; tauto |].
  destruct Hk as [rk Ek].
  destruct (static_figure fs initial_world) as [w1 o1] eqn:E.
  cbv -[expected] in E, E40, E60, E340, Ek.
  rewrite E40 in E. cbv -[expected] in E.
  rewrite E60 in E. cbv -[expected] in E.
  rewrite E340 in E. cbv -[expected] in E.
  rewrite Ek in E. cbv -[expected] in E.
  injection E as <- <-.
  match goal with
  | |- exists w1 w2, (?W, _) = _ /\ _ =>
      exists W; destruct (save_plot fs W) as [w2 o2] eqn:E2
  end.
  cbv -[expected] in E2. injection E2 as <- <-.
  eexists. split; [reflexivity |]. split; [reflexivity |].
  cbv -[expected]. repeat split; try reflexivity.
  eexists. repeat split; reflexivity.
Qed.

(** X12. When the static inputs load, the [.pdf] and the [.png] hold one and
    the same four-panel figure, and the legend call of line 55 lands on the
    divergence panel, the Axes made last; whatever the run writes after
    these two files is a movie. *)
Theorem saved_figure (fs : filesystem) :
  (forall c, In c data_counts -> readable fs (data_loc c)) ->
  readable fs kld_data_loc ->
  exists ps rest,
    w_written (fst (run fs))
      = (name +++ ".pdf", Figure ps) :: (name +++ ".png", Figure ps) :: rest
    /\ map p_title ps
       = ["(a) pdf at update count: 40"; "(b) pdf at update count: 60";
          "(c) pdf at update count: 340"; "(d) KL-divergence"]
    /\ map drawn_path ps
       = [Some (data_loc 40); Some (data_loc 60); Some (data_loc 340); Some kld_data_loc]
    /\ (exists p, nth_error ps 3 = Some p
                  /\ p_title p = "(d) KL-divergence" /\ p_legend p = true)
    /\ Forall (fun fa => is_movie (snd fa) = true) rest.
Proof.
  intros Hc Hk.
  destruct (static_saved fs Hc Hk) as (w1 & w2 & E1 & E2 & Hw & Ht & Hd & Hl).
  unfold run, main. rewrite bind_unfold, E1, bind_unfold, E2.
  destruct (pdf_animated_cases fs w2)
    as [(fr1 & fr2 & w3 & E & Hw3 & Hp & _)
       | (frames & w3 & c & rest & why & E & Hw3 & Hp & _)]; rewrite E; simpl.
  - exists (w_panels w2), [(name +++ "-errorbar.gif", Movie fr1 fps);
                           (name +++ "-histo.gif", Movie fr2 fps)].
    rewrite Hw3, Hw. repeat split; try assumption. repeat constructor.
  - exists (w_panels w2), [(name +++ "-errorbar.gif", Movie frames fps)].
    rewrite Hw3, Hw. repeat split; try assumption. repeat constructor.
Qed.

Lemma saved_figure_witness :
  (forall c, In c data_counts -> readable all_readable (data_loc c))
  /\ readable all_readable kld_data_loc
  /\ exists ps rest,
       w_written (fst (run all_readable))
       = (name +++ ".pdf", Figure ps) :: (name +++ ".png", Figure ps) :: rest
       /\ exists p, nth_error ps 3 = Some p
                    /\ p_title p = "(d) KL-divergence" /\ p_legend p = true.
Proof.
  assert (Hc : forall c, In c data_counts -> readable all_readable (data_loc c))
    by (intros c _; apply all_readable_readable).
  assert (Hk : readable all_readable kld_data_loc) by apply all_readable_readable.
  split; [exact Hc |]. split; [exact Hk |].
  destruct (saved_figure all_readable Hc Hk) as (ps & rest & Hw & _ & _ & Hl & _).
  exists ps, rest. split; [exact Hw | exact Hl].
Defined.

(** X13. The outputs appear in the order of the script, and a run leaves a
    beginning of that list: never the [.png] without the [.pdf], a movie
    without the figure, or the second movie without the first; it leaves
    all four exactly when it completes. *)
Theorem written_in_stages (fs : filesystem) :
  (exists k, written_names (fst (run fs)) = firstn k (output_names name))
  /\ (written_names (fst (run fs)) = output_names name <-> snd (run fs) = Done tt).
Proof.
  unfold written_names.
  destruct (run_cases fs)
    as [(w & ps & fr1 & fr2 & E & Hw & _)
       | [(w & e & E & _ & Hw) | (w & ps & fr & c & rest & why & E & _ & Hw & _)]];
    rewrite E; simpl; rewrite Hw; simpl.
  - split; [now exists 4%nat | split; reflexivity].
  - split; [now exists 0%nat | split; discriminate].
  - split; [now exists 3%nat | split; discriminate].
Qed.

Lemma data_counts_in_sweep (c : Z) :
  In c data_counts -> In c (pdfplt.sweep start end_ step).
Proof.
  intros H. apply sweep_In; [reflexivity |]. unfold start, end_, step.
  simpl in H. destruct H as [<- | [<- | [<- | []]]];
    [exists 3 | exists 5 | exists 33]; lia.
Qed.

(** X14. A run completes exactly when every file it names loads: the
    checkpoint files of the static panels, the trace file and the
    checkpoint files of the sweep. *)
Theorem run_completes_iff (fs : filesystem) :
  snd (run fs) = Done tt <-> forall path, input_path path -> readable fs path.
Proof.
  split.
  - intros Hdone.
    assert (Hs : forall c, In c (pdfplt.sweep start end_ step) -> readable fs (data_loc c)).
    { destruct (run_cases fs)
        as [(w & ps & fr1 & fr2 & E & _ & _ & _ & Hr)
           | [(w & e & E & _) | (w & ps & fr & c & rest & why & E & _)]];
        rewrite E in Hdone; [exact Hr | discriminate Hdone | discriminate Hdone]. }
    assert (Hk : readable fs kld_data_loc).
    { unfold run, main in Hdone. rewrite bind_unfold in Hdone.
      destruct (static_figure fs initial_world) as [w1 [[] | e]] eqn:E1;
        [| discriminate Hdone].
      now apply static_figure_done in E1. }
    intros path [(c & Hc & ->) | [-> | (c & Hc & ->)]].
    + now apply Hs, data_counts_in_sweep.
    + exact Hk.
    + now apply Hs.
  - intros Hall.
    assert (Hc : forall c, In c data_counts -> readable fs (data_loc c)).
    { intros c Hc. apply Hall. left. now exists c. }
    assert (Hk : readable fs kld_data_loc) by (apply Hall; right; now left).
    destruct (static_saved fs Hc Hk) as (w1 & w2 & E1 & E2 & _).
    unfold run, main. rewrite bind_unfold, E1, bind_unfold, E2.
    destruct (pdf_animated_cases fs w2)
      as [(fr1 & fr2 & w3 & E & _) | (frames & w3 & c & rest & why & E & _ & _ & Hsw & _ & Hl)];
      rewrite E; [reflexivity |].
    exfalso. destruct (Hall (data_loc c)) as [rows Hrows].
    + right. right. exists c. split; [| reflexivity].
      rewrite Hsw. apply in_or_app. right. now left.
    + simpl in Hl. now rewrite Hrows in Hl.
Qed.

(** *** The files a run consults *)

Section Reads.

Variable paths : string -> Prop.

Lemma reads_ret {A : Type} (a : A) : reads_only paths (ret a).
Proof. intros fs fs' _ w. reflexivity. Qed.

Lemma reads_get : reads_only paths get.
Proof. intros fs fs' _ w. reflexivity. Qed.

Lemma reads_modify (f : world -> world) : reads_only paths (modify f).
Proof. intros fs fs' _ w. reflexivity. Qed.

Lemma reads_load (path : string) : paths path -> reads_only paths (load path).
Proof. intros Hp fs fs' H w. unfold load. now rewrite (H path Hp). Qed.

Lemma reads_bind {A B : Type} (m : script A) (k : A -> script B) :
  reads_only paths m -> (forall a, reads_only paths (k a)) -> reads_only paths (bind m k).
Proof.
  intros Hm Hk fs fs' H w. unfold bind. rewrite (Hm fs fs' H w).
  destruct (m fs' w) as [w1 [a | e]]; [apply (Hk a fs fs' H) | reflexivity].
Qed.

Lemma reads_bind_ret {A B : Type} (a : A) (k : A -> script B) :
  reads_only paths (k a) -> reads_only paths (bind (ret a) k).
Proof. intros Hk fs fs' H w. exact (Hk fs fs' H w). Qed.

Ltac reads_steps :=
  repeat first
    [ apply reads_ret
    | apply reads_get
    | apply reads_modify
    | apply reads_bind; [| intros ?]
    | match goal with
      | |- reads_only _ (match ?x with _ => _ end) => destruct x
      end ].

Lemma reads_subplot (nrows ncols index : nat) : reads_only paths (plt.subplot nrows ncols index).
Proof. unfold plt.subplot. reads_steps. Qed.

Lemma reads_set_title (ax : nat) (t : string) : reads_only paths (plt.set_title ax t).
Proof. unfold plt.set_title, plt.on_axes. reads_steps. Qed.

Lemma reads_pdfplot_bar ax reference path x0 x1 y0 y1 :
  paths path -> reads_only paths (pdfplt.pdfplot_bar ax reference path x0 x1 y0 y1).
Proof.
  intros Hp. unfold pdfplt.pdfplot_bar, plt.on_axes.
  apply reads_bind; [now apply reads_load | intros rows]. apply reads_modify.
Qed.

Lemma reads_kldplot ax path cap cmin cmax rs rp :
  paths path -> reads_only paths (kldplt.kldplot ax path cap cmin cmax rs rp).
Proof.
  intros Hp. unfold kldplt.kldplot, plt.on_axes.
  apply reads_bind; [now apply reads_load | intros rows]. apply reads_modify.
Qed.

Lemma reads_pdf_loop (all rest : list Z) :
  (forall c, In c rest -> paths (data_loc c)) ->
  forall i, reads_only paths (pdf_loop all rest i).
Proof.
  induction rest as [| c rest IH]; intros Hp i; simpl.
  - apply reads_ret.
  - apply reads_bind; [apply reads_subplot | intros ax].
    apply reads_bind; [apply reads_set_title | intros _].
    apply reads_bind; [apply reads_pdfplot_bar, Hp; now left | intros _].
    apply IH. intros c' Hc'. apply Hp. now right.
Qed.

Lemma reads_save_plot : reads_only paths save_plot.
Proof.
  unfold save_plot, plt.legend, plt.savefig, plt.write, plt.show, plt.on_axes.
  reads_steps.
Qed.

Lemma reads_grab_frames (a : pdfplt.animation) (cs : list Z) :
  (forall c, In c cs -> paths (pdfplt.a_data_loc a c)) ->
  forall fs fs' : filesystem,
    (forall path, paths path -> fs path = fs' path) ->
    forall w, pdfplt.grab_frames a cs fs w = pdfplt.grab_frames a cs fs' w.
Proof.
  induction cs as [| c cs IH]; intros Hp fs fs' H w; simpl; [reflexivity |].
  assert (Hf : reads_only paths (pdfplt.render_frame a c)).
  { unfold pdfplt.render_frame.
    apply reads_bind; [apply reads_load, Hp; now left | intros rows]. apply reads_ret. }
  rewrite (Hf fs fs' H w).
  destruct (pdfplt.render_frame a c fs' w) as [w1 [f | e]]; [| reflexivity].
  rewrite (IH (fun c' Hc' => Hp c' (or_intror Hc')) fs fs' H w1). reflexivity.
Qed.

Lemma reads_save (a : pdfplt.animation) (file : string) (rate : pynum) :
  (forall c, In c (pdfplt.a_checkpoints a) -> paths (pdfplt.a_data_loc a c)) ->
  reads_only paths (pdfplt.save a file rate).
Proof.
  intros Hp fs fs' H w. unfold pdfplt.save.
  rewrite (reads_grab_frames a _ Hp fs fs' H w). reflexivity.
Qed.

End Reads.

Lemma reads_main : reads_only input_path main.
Proof.
  unfold main, static_figure, pdf_represented, kld, pdf_animated,
    pdfplt.animated_pdfplot_errorbar, pdfplt.animated_pdfplot_bar, pdfplt.animated, plt.figure.
  apply reads_bind; [| intros _].
  - apply reads_bind; [apply reads_modify | intros _].
    apply reads_bind; [| intros _].
    + apply reads_pdf_loop. intros c Hc. left. now exists c.
    + apply reads_bind; [apply reads_subplot | intros ax].
      apply reads_bind; [apply reads_set_title | intros _].
      apply reads_kldplot. right. now left.
  - apply reads_bind; [apply reads_save_plot | intros _].
    apply reads_bind_ret.
    apply reads_bind; [| intros _].
    + apply reads_save. intros c Hc. right. right. now exists c.
    + apply reads_bind_ret.
      apply reads_save. intros c Hc. right. right. now exists c.
Qed.

(** X15. A run depends on the file system only through the files it names: two
    file systems that agree on the checkpoint files of the static panels
    and of the sweep and on the trace file give the same run, whatever else
    they hold. *)
Theorem run_reads_inputs_only (fs fs' : filesystem) :
  (forall path, input_path path -> fs path = fs' path) -> run fs = run fs'.
Proof.
  intros H. unfold run. now apply reads_main.
Qed.

Lemma input_path_relative (path : string) :
  input_path path -> exists t, path = String "." t.
Proof.
  assert (Hd : forall c, exists t, data_loc c = String "." t).
  { intros c. unfold data_loc. rewrite !add_str_assoc. eexists. reflexivity. }
  intros [(c & _ & ->) | [-> | (c & _ & ->)]]; try apply Hd.
  eexists. reflexivity.
Qed.

Lemma run_reads_inputs_only_witness :
  (forall path, input_path path -> all_readable path = all_but_notes path)
  /\ all_readable "notes.txt" <> all_but_notes "notes.txt"
  /\ run all_readable = run all_but_notes.
Proof.
  assert (H : forall path, input_path path -> all_readable path = all_but_notes path).
  { intros path Hp. destruct (input_path_relative path Hp) as [t ->]. reflexivity. }
  split; [exact H |]. split; [discriminate |].
  exact (run_reads_inputs_only all_readable all_but_notes H).
Defined.
